(** * Stripe checkout POC: the payment-intent handshake

    A shallow embedding of the three pieces of code that carry the
    checkout logic:

    - [src/src/StripeCheckout.tsx]: the wrapper component that asks the
      relay for a PaymentIntent ([Module StripeCheckout]);
    - [src/src/CheckoutForm.tsx]: the form that confirms the payment
      through Stripe.js ([Module CheckoutForm]);
    - [src/server/index.ts]: the Express relay ([Module Relay]).

    React components are modelled as state machines: the component state
    is a record of its [useState] cells, an event is something the
    browser delivers (a click, a prop change, the settling of an awaited
    promise), and every outbound call is appended to a log kept next to
    the state.  An [async] function is split at its [await]: the part
    that runs inside the event handler, and the continuation that runs
    when the promise settles. *)

From stdpp Require Import base option list strings pretty gmap.
From Stdlib Require Import ZArith Lia.

Local Open Scope string_scope.
Local Open Scope list_scope.
Local Open Scope Z_scope.

(** ** JavaScript values the code relies on *)

Module JS.

(** A value caught by [catch (err)]: the code only asks whether it is an
    [Error] and, if so, reads its [message]. *)
Inductive Thrown :=
  | ThrownError (msg : string)
  | ThrownOther.

(** [err instanceof Error ? err.message : fallback] *)
Definition message_or (err : Thrown) (fallback : string) : string :=
  match err with
  | ThrownError msg => msg
  | ThrownOther => fallback
  end.

(** [s || fallback] on a possibly missing string: [undefined] and the
    empty string are falsy. *)
Definition or_else (s : option string) (fallback : string) : string :=
  match s with
  | Some "" => fallback
  | Some m => m
  | None => fallback
  end.

(** Truthiness of a string, as in [if (error)] and [!clientSecret]. *)
Definition truthy (s : string) : bool :=
  match s with
  | "" => false
  | _ => true
  end.

(** An awaited promise either fulfils with a value or rejects. *)
Inductive Settled (A : Type) :=
  | Fulfilled (a : A)
  | Rejected (err : Thrown).
Arguments Fulfilled {A} a.
Arguments Rejected {A} err.

End JS.

(** ** StripeCheckout.tsx: the intent requester *)

Module StripeCheckout.
Import JS.

(** The [fetch] call of [createPaymentIntent]. *)
Record Request := mkRequest {
  url : string;
  method : string;
  content_type : string;
  body_amount : Z;
  body_currency : string
}.

(** What the code reads from the HTTP response: [response.ok], then the
    parsed body, of which it reads [error] when the response is not ok
    and [clientSecret] when it is ([None] is a field that is absent).
    [response.json()] may itself reject. *)
Record ResponseBody := mkResponseBody {
  body_error : option string;
  body_clientSecret : option string;
  body_paymentIntentId : option string
}.

Record HttpResponse := mkHttpResponse {
  ok : bool;
  json : Settled ResponseBody
}.

(** The three [useState] cells, the prop the effect depends on, and the
    bookkeeping of the network: every request issued so far, and the
    requests that have not settled yet, keyed by their position in the
    log.  The component itself never looks at the bookkeeping. *)
Record State := mkState {
  clientSecret : string;
  error : string;
  loading : bool;
  totalAmount : Z;
  network : list Request;
  in_flight : gmap nat Request
}.

Definition setClientSecret (v : string) (st : State) : State :=
  mkState v (error st) (loading st) (totalAmount st) (network st) (in_flight st).
Definition setError (v : string) (st : State) : State :=
  mkState (clientSecret st) v (loading st) (totalAmount st) (network st) (in_flight st).
Definition setLoading (v : bool) (st : State) : State :=
  mkState (clientSecret st) (error st) v (totalAmount st) (network st) (in_flight st).
Definition setTotalAmount (v : Z) (st : State) : State :=
  mkState (clientSecret st) (error st) (loading st) v (network st) (in_flight st).

(** [fetch(...)]: the request is logged and stays in flight until it
    settles. *)
Definition fetch (req : Request) (st : State) : State :=
  mkState (clientSecret st) (error st) (loading st) (totalAmount st)
          (network st ++ [req])
          (<[length (network st) := req]> (in_flight st)).

Section Component.

(** [import.meta.env.VITE_API_URL || '/api'] *)
Variable VITE_API_URL : option string.

Definition apiUrl : string := or_else VITE_API_URL "/api".

Definition create_request (amount : Z) : Request :=
  mkRequest (apiUrl +:+ "/create-payment-intent") "POST" "application/json"
            amount "usd".

(** [createPaymentIntent], up to its [await fetch(...)]. *)
Definition createPaymentIntent (st : State) : State :=
  fetch (create_request (totalAmount st)) (setError "" (setLoading true st)).

(** The rest of [createPaymentIntent], run when the fetch settles:
    the [try] body after the await, the [catch] and the [finally]. *)
Definition createPaymentIntent_resume
    (r : Settled HttpResponse) (st : State) : State :=
  let catch err st :=
    setError (message_or err "Failed to initialize payment") st in
  let st' :=
    match r with
    | Rejected err => catch err st
    | Fulfilled response =>
        match json response with
        | Rejected err => catch err st
        | Fulfilled data =>
            if negb (ok response) then
              (* throw new Error(errorData.error || '...') *)
              catch (ThrownError
                       (or_else (body_error data)
                                "Failed to create payment intent")) st
            else
              (* a missing clientSecret is stored as the falsy "" *)
              setClientSecret (default "" (body_clientSecret data)) st
        end
    end in
  setLoading false st'.

(** The body of the [useEffect] that depends on [totalAmount]. *)
Definition effect (st : State) : State :=
  if totalAmount st <? 50 then
    setLoading false (setError "Minimum order amount is $0.50" st)
  else
    createPaymentIntent st.

(** What the component renders. *)
Inductive View :=
  | LoadingView
  | ErrorView (msg : string)      (* with the "Try Again" button *)
  | NullView
  | CheckoutView (secret : string).

Definition render (st : State) : View :=
  if loading st then LoadingView
  else if truthy (error st) then ErrorView (error st)
  else if negb (truthy (clientSecret st)) then NullView
  else CheckoutView (clientSecret st).

Definition retry_button_shown (st : State) : bool :=
  match render st with
  | ErrorView _ => true
  | _ => false
  end.

Inductive Event :=
  | PropChange (amount : Z)         (* the parent renders a new total *)
  | ClickTryAgain                   (* the retry button *)
  | FetchSettled (id : nat) (r : Settled HttpResponse).

(** The state after the first render, with its effect run. *)
Definition mount (amount : Z) : State :=
  effect (mkState "" "" true amount [] ∅).

Definition step (ev : Event) (st : State) : State :=
  match ev with
  | PropChange amount =>
      if Z.eqb amount (totalAmount st) then st
      else effect (setTotalAmount amount st)
  | ClickTryAgain =>
      if retry_button_shown st then createPaymentIntent st else st
  | FetchSettled id r =>
      match in_flight st !! id with
      | None => st
      | Some _ =>
          createPaymentIntent_resume r
            (mkState (clientSecret st) (error st) (loading st)
                     (totalAmount st) (network st)
                     (delete id (in_flight st)))
      end
  end.

Definition run (evs : list Event) (st : State) : State :=
  foldl (fun st ev => step ev st) st evs.

(** Every request sent so far is the POST to [create-payment-intent]. *)
Definition only_create (st : State) : Prop :=
  ∀ req, req ∈ network st →
    url req = apiUrl +:+ "/create-payment-intent".

End Component.

End StripeCheckout.

(** ** CheckoutForm.tsx: the confirmation orchestrator *)

Module CheckoutForm.
Import JS.

(** [types.ts]: [type PaymentStatus = 'idle' | 'processing' | 'succeeded' | 'failed'] *)
Inductive PaymentStatus := idle | processing | succeeded | failed.

#[global] Instance PaymentStatus_eq_dec : EqDecision PaymentStatus.
Proof. solve_decision. Defined.

(** The result object of [stripe.confirmPayment]: the code reads
    [error.message] and [paymentIntent.status] and nothing else. *)
Record StripeError := mkStripeError {
  error_message : option string          (* [message?: string] *)
}.

Record PaymentIntent := mkPaymentIntent {
  pi_status : string
}.

Record ConfirmResult := mkConfirmResult {
  result_error : option StripeError;
  result_paymentIntent : option PaymentIntent
}.

(** What the form does to the outside world. *)
Inductive Effect :=
  | ConfirmPayment (return_url : string) (redirect : string)
  | OnSuccess.

#[global] Instance Effect_eq_dec : EqDecision Effect.
Proof. solve_decision. Defined.

(** What a function given as the [onSuccess] prop does when it is
    called: it returns, or it throws. *)
Inductive Callback :=
  | CallbackReturns
  | CallbackThrows (err : Thrown).

(** The values the hooks and props hand to the component: whether
    [useStripe()] and [useElements()] returned an instance, the optional
    [onSuccess] prop ([None] when it was not given), and
    [window.location.origin]. *)
Record Env := mkEnv {
  stripe : bool;
  elements : bool;
  onSuccess : option Callback;
  origin : string
}.

(** The two [useState] cells, the log of effects, and the number of
    [confirmPayment] promises that have not settled. *)
Record State := mkState {
  paymentStatus : PaymentStatus;
  message : string;
  effects : list Effect;
  awaiting : nat
}.

Definition setPaymentStatus (v : PaymentStatus) (st : State) : State :=
  mkState v (message st) (effects st) (awaiting st).
Definition setMessage (v : string) (st : State) : State :=
  mkState (paymentStatus st) v (effects st) (awaiting st).
Definition emit (e : Effect) (st : State) : State :=
  mkState (paymentStatus st) (message st) (effects st ++ [e]) (awaiting st).
Definition suspend (st : State) : State :=
  mkState (paymentStatus st) (message st) (effects st) (S (awaiting st)).
Definition wake (st : State) : State :=
  mkState (paymentStatus st) (message st) (effects st) (pred (awaiting st)).

Definition initial : State := mkState idle "" [] 0.

Section Component.

Variable env : Env.

(** [handleSubmit], up to its [await stripe.confirmPayment(...)]. *)
Definition handleSubmit (st : State) : State :=
  if negb (stripe env) || negb (elements env) then
    setMessage "Stripe is not loaded. Please refresh the page." st
  else
    suspend
      (emit (ConfirmPayment (origin env +:+ "/completion") "if_required")
         (setMessage "" (setPaymentStatus processing st))).

(** [onSuccess?.()]: without the prop nothing happens; with it the
    callback is invoked, and what it throws, if it throws, leaves the
    [try] block. *)
Definition call_onSuccess (st : State) : State * option Thrown :=
  match onSuccess env with
  | None => (st, None)
  | Some CallbackReturns => (emit OnSuccess st, None)
  | Some (CallbackThrows err) => (emit OnSuccess st, Some err)
  end.

(** The [catch (err)] block of [handleSubmit]. *)
Definition handleSubmit_catch (err : Thrown) (st : State) : State :=
  setPaymentStatus failed
    (setMessage (message_or err "An unexpected error occurred") st).

(** The rest of [handleSubmit], run when [confirmPayment] settles: the
    [try] body after the await, and the [catch] for a rejected call and
    for a callback that throws. *)
Definition handleSubmit_resume
    (r : Settled ConfirmResult) (st : State) : State :=
  match r with
  | Fulfilled res =>
      match result_error res with
      | Some err =>
          setPaymentStatus failed
            (setMessage
               (or_else (error_message err) "An error occurred during payment")
               st)
      | None =>
          match result_paymentIntent res with
          | Some pi =>
              if String.eqb (pi_status pi) "succeeded" then
                let '(st', thrown) :=
                  call_onSuccess
                    (setMessage "Payment successful! Thank you for your purchase."
                       (setPaymentStatus succeeded st)) in
                match thrown with
                | Some err => handleSubmit_catch err st'
                | None => st'
                end
              else st
          | None => st
          end
      end
  | Rejected err => handleSubmit_catch err st
  end.

(** [disabled={!stripe || isProcessing || isSucceeded}] on the pay
    button, the form's only submit control. *)
Definition pay_button_disabled (st : State) : bool :=
  negb (stripe env)
  || bool_decide (paymentStatus st = processing)
  || bool_decide (paymentStatus st = succeeded).

Inductive Event :=
  | ClickPay                                   (* a confirm request from the UI *)
  | ConfirmSettled (r : Settled ConfirmResult).

(** A disabled button delivers no submit event; a settlement is only
    delivered while a call is outstanding. *)
Definition step (ev : Event) (st : State) : State :=
  match ev with
  | ClickPay =>
      if pay_button_disabled st then st else handleSubmit st
  | ConfirmSettled r =>
      match awaiting st with
      | O => st
      | S _ => handleSubmit_resume r (wake st)
      end
  end.

Definition run (evs : list Event) (st : State) : State :=
  foldl (fun st ev => step ev st) st evs.

(** How often an effect occurs in the log. *)
Definition count (e : Effect) (st : State) : nat :=
  length (filter (fun x => x = e) (effects st)).

Definition is_confirm (e : Effect) : bool :=
  match e with
  | ConfirmPayment _ _ => true
  | OnSuccess => false
  end.

Definition confirm_calls (st : State) : nat :=
  length (filter (fun e => is_confirm e = true) (effects st)).

(** The [onSuccess] prop, if given, is a function that returns. *)
Definition callback_returns : Prop :=
  ∀ err, onSuccess env ≠ Some (CallbackThrows err).

Definition has_callback : bool :=
  match onSuccess env with
  | Some _ => true
  | None => false
  end.

(** What holds of every state the form can reach: at most one
    confirmation is outstanding, only while processing and with the
    message cleared; and, for a callback that returns, the callback has
    run once if the payment succeeded and never otherwise. *)
Definition reachable_inv (st : State) : Prop :=
  (awaiting st ≤ 1)%nat
  ∧ (awaiting st = 1%nat → paymentStatus st = processing ∧ message st = "")
  ∧ (callback_returns →
       count OnSuccess st
       = (if bool_decide (paymentStatus st = succeeded) && has_callback
          then 1 else 0)%nat).

End Component.

End CheckoutForm.

(** ** server/index.ts: the relay *)

Module Relay.

(** [req.body] of [POST /api/create-payment-intent], as the handler
    destructures it; [None] is a field that is absent ([undefined]).
    [amount] is the integer count of minor units of the documented
    request. *)
Record CreateBody := mkCreateBody {
  amount : option Z;
  currency : option string;
  paymentMethodTypes : option (list string)
}.

(** [req.body] of [POST /api/confirm-payment]. *)
Record ConfirmBody := mkConfirmBody {
  paymentIntentId : option string
}.

(** The argument of [stripe.paymentIntents.create]. *)
Record CreateParams := mkCreateParams {
  params_amount : Z;
  params_currency : string;
  automatic_payment_methods_enabled : bool;
  payment_method_types : option (list string)
}.

(** The fields of Stripe's PaymentIntent the relay reads. *)
Record PaymentIntent := mkPaymentIntent {
  id : string;
  client_secret : option string;       (* [string | null] *)
  status : string;
  intent_amount : Z;
  intent_currency : string
}.

(** The processor calls of the two endpoints. *)
Inductive Call :=
  | PaymentIntentsCreate (params : CreateParams)
  | PaymentIntentsRetrieve (id : string).

(** A settled SDK promise; the handlers' [catch (error: any)] reads only
    [error.message]. *)
Inductive Settled :=
  | Fulfilled (paymentIntent : PaymentIntent)
  | Rejected (error_message : option string).

(** The JSON bodies the handlers send. *)
Inductive Json :=
  | IntentJson (clientSecret : option string) (paymentIntentId : string)
  | StatusJson (status : string) (amount : Z) (currency : string)
  | ErrorJson (error : string).

Record Response := mkResponse {
  http_status : Z;
  body : Json
}.

(** [res.json(b)] and [res.status(c).json(b)] *)
Definition res_json (b : Json) : Response := mkResponse 200 b.
Definition res_status_json (c : Z) (b : Json) : Response := mkResponse c b.

(** An [async] handler: it responds, or awaits one processor call and
    goes on with what the call settled to. *)
Inductive Handler :=
  | Respond (r : Response)
  | Await (c : Call) (k : Settled -> Handler).

(** [!amount || amount < 50]: a missing amount and zero are falsy. *)
Definition amount_rejected (a : option Z) : bool :=
  match a with
  | None => true
  | Some n => (n =? 0) || (n <? 50)
  end.

(** [app.post('/api/create-payment-intent', ...)] *)
Definition create_payment_intent (b : CreateBody) : Handler :=
  let currency := default "usd" (currency b) in
  match amount b with
  | Some amount =>
      if amount_rejected (Some amount) then
        Respond (res_status_json 400
                   (ErrorJson "Amount must be at least $0.50 USD"))
      else
        Await
          (PaymentIntentsCreate
             (mkCreateParams amount currency true (paymentMethodTypes b)))
          (fun r =>
             match r with
             | Fulfilled paymentIntent =>
                 Respond (res_json (IntentJson (client_secret paymentIntent)
                                               (id paymentIntent)))
             | Rejected msg =>
                 Respond (res_status_json 500
                            (ErrorJson
                               (JS.or_else msg
                                  "Failed to create payment intent")))
             end)
  | None =>
      Respond (res_status_json 400
                 (ErrorJson "Amount must be at least $0.50 USD"))
  end.

(** [app.post('/api/confirm-payment', ...)] *)
Definition confirm_payment (b : ConfirmBody) : Handler :=
  match paymentIntentId b with
  | None | Some "" =>
      Respond (res_status_json 400 (ErrorJson "paymentIntentId is required"))
  | Some pid =>
      Await (PaymentIntentsRetrieve pid)
        (fun r =>
           match r with
           | Fulfilled paymentIntent =>
               Respond (res_json (StatusJson (status paymentIntent)
                                             (intent_amount paymentIntent)
                                             (intent_currency paymentIntent)))
           | Rejected msg =>
               Respond (res_status_json 500
                          (ErrorJson
                             (JS.or_else msg "Failed to confirm payment")))
           end)
  end.

(** The processor calls a handler makes, given how each call settles. *)
Fixpoint calls (settle : Call -> Settled) (h : Handler) : list Call :=
  match h with
  | Respond _ => []
  | Await c k => c :: calls settle (k (settle c))
  end.

(** Running a handler against a processor: a processor holds a store of
    intents and answers a call with how the call settles and the store
    afterwards. *)
Section Run.

Context {Store : Type}.
Variable processor : Call -> Store -> Settled * Store.

Fixpoint serve (h : Handler) (s : Store) : Response * Store :=
  match h with
  | Respond r => (r, s)
  | Await c k =>
      let '(r, s') := processor c s in
      serve (k r) s'
  end.

(** [n] requests with the same handler, one after the other. *)
Fixpoint serve_n (n : nat) (h : Handler) (s : Store) : list Response * Store :=
  match n with
  | O => ([], s)
  | S n' =>
      let '(r, s') := serve h s in
      let '(rs, s'') := serve_n n' h s' in
      (r :: rs, s'')
  end.

End Run.

(** A small processor to run the handlers against: intents live in a map
    keyed by id; creating one stores it under the next free id with the
    status of a new intent, retrieving one looks it up. *)
Definition new_id (s : gmap string PaymentIntent) : string :=
  "pi_" +:+ pretty (size s).

Definition sim_processor (c : Call) (s : gmap string PaymentIntent)
  : Settled * gmap string PaymentIntent :=
  match c with
  | PaymentIntentsCreate p =>
      let pi := mkPaymentIntent (new_id s)
                  (Some (new_id s +:+ "_secret"))
                  "requires_payment_method"
                  (params_amount p) (params_currency p) in
      (Fulfilled pi, <[new_id s := pi]> s)
  | PaymentIntentsRetrieve pid =>
      match s !! pid with
      | Some pi => (Fulfilled pi, s)
      | None => (Rejected (Some ("No such payment_intent: " +:+ pid)), s)
      end
  end.

End Relay.

(** ** The wire between the two halves *)

Module Wire.

(** What [fetch] hands the frontend for a response of the relay:
    [response.ok] is a status from 200 to 299, and the body is the JSON
    the handler sent. *)
Definition delivered (r : Relay.Response)
  : JS.Settled StripeCheckout.HttpResponse :=
  JS.Fulfilled
    (StripeCheckout.mkHttpResponse
       ((200 <=? Relay.http_status r) && (Relay.http_status r <? 300))
       (JS.Fulfilled
          match Relay.body r with
          | Relay.IntentJson secret pid =>
              StripeCheckout.mkResponseBody None secret (Some pid)
          | Relay.ErrorJson e =>
              StripeCheckout.mkResponseBody (Some e) None None
          | Relay.StatusJson _ _ _ =>
              StripeCheckout.mkResponseBody None None None
          end)).

(** The relay's answer to a request of the frontend, on an empty
    processor. *)
Definition relay_answer (req : StripeCheckout.Request)
  : JS.Settled StripeCheckout.HttpResponse :=
  delivered
    (Relay.serve Relay.sim_processor
       (Relay.create_payment_intent
          (Relay.mkCreateBody (Some (StripeCheckout.body_amount req))
                              (Some (StripeCheckout.body_currency req)) None))
       ∅).1.

Definition shop : CheckoutForm.Env :=
  CheckoutForm.mkEnv true true (Some CheckoutForm.CallbackReturns)
    "https://shop.example".

End Wire.

(** ** App.tsx: the cart and its total *)

Module App.

(** [types.ts]: [CartItem].  Prices are integer cents, as the source
    comments them, and quantities are counts.  JavaScript keeps both as
    doubles; the embedding keeps them as integers and computes with
    exact integer arithmetic, which is what the code computes as long as
    every product and running sum stays a safe integer (see
    [safe_cart]).  Beyond that range the code rounds and the embedding
    does not follow it. *)
Record CartItem := mkCartItem {
  item_id : string;
  item_name : string;
  item_description : option string;
  price : Z;
  quantity : Z;
  image : option string
}.

(** [sampleCart.reduce((sum, item) => sum + item.price * item.quantity, 0)] *)
Definition totalAmount (cart : list CartItem) : Z :=
  foldl (fun sum item => sum + price item * quantity item) 0 cart.

(** The amount of one line of the order summary, before it is shown in
    dollars: [item.price * item.quantity] in [CheckoutForm.tsx]. *)
Definition line_amount (item : CartItem) : Z :=
  price item * quantity item.

(** [Number.MAX_SAFE_INTEGER]: up to here doubles hold every integer,
    and sums and products whose exact result is in range are exact. *)
Definition MAX_SAFE_INTEGER : Z := 2 ^ 53 - 1.

(** A cart on which the code's arithmetic is exact: prices and
    quantities are safe integers that are not negative, and so is the
    total; every line amount and every running sum of the [reduce] then
    lies between 0 and the total. *)
Definition safe_cart (cart : list CartItem) : Prop :=
  Forall (fun item => 0 ≤ price item ≤ MAX_SAFE_INTEGER
                      ∧ 0 ≤ quantity item ≤ MAX_SAFE_INTEGER) cart
  ∧ totalAmount cart ≤ MAX_SAFE_INTEGER.

Definition sampleCart : list CartItem :=
  [ mkCartItem "1" "Premium T-Shirt"
      (Some "High-quality cotton tee with custom logo") 2999 2 None;
    mkCartItem "2" "Custom Mug"
      (Some "11oz ceramic mug with personalization") 1499 1 None;
    mkCartItem "3" "Branded Pen Set"
      (Some "Set of 3 premium pens with company branding") 1999 1 None ].


End App.

(** ** StripeCheckout.tsx: which events send a request *)

Module Requests.

(** The events whose handlers can reach [fetch]: the effect of a prop
    change and the retry click.  A settling response runs the rest of
    [createPaymentIntent], which has no [fetch] in it. *)
Definition may_send (ev : StripeCheckout.Event) : bool :=
  match ev with
  | StripeCheckout.PropChange _ => true
  | StripeCheckout.ClickTryAgain => true
  | StripeCheckout.FetchSettled _ _ => false
  end.

(** A response that stores a usable client secret: fulfilled, [ok], a
    parsed body, and a truthy [clientSecret]. *)
Definition brings_secret (r : JS.Settled StripeCheckout.HttpResponse) : bool :=
  match r with
  | JS.Fulfilled response =>
      match StripeCheckout.json response with
      | JS.Fulfilled data =>
          StripeCheckout.ok response
          && JS.truthy (default "" (StripeCheckout.body_clientSecret data))
      | JS.Rejected _ => false
      end
  | JS.Rejected _ => false
  end.

Definition settles_without_secret (ev : StripeCheckout.Event) : bool :=
  match ev with
  | StripeCheckout.FetchSettled _ r => negb (brings_secret r)
  | _ => true
  end.

Definition is_retry (ev : StripeCheckout.Event) : bool :=
  match ev with
  | StripeCheckout.ClickTryAgain => true
  | _ => false
  end.

End Requests.

(** ** CheckoutForm.tsx: what the form renders *)

Module CheckoutFormView.
Import CheckoutForm.

(** The text of the pay button.  The amount of the third case is shown
    as [(totalAmount / 100).toFixed(2)]; the model keeps the amount. *)
Inductive ButtonLabel :=
  | LabelProcessing          (* 'Processing...' *)
  | LabelComplete            (* '✓ Payment Complete' *)
  | LabelPay (totalAmount : Z).

Definition isProcessing (st : State) : bool :=
  bool_decide (paymentStatus st = processing).
Definition isSucceeded (st : State) : bool :=
  bool_decide (paymentStatus st = succeeded).

Definition button_label (totalAmount : Z) (st : State) : ButtonLabel :=
  if isProcessing st then LabelProcessing
  else if isSucceeded st then LabelComplete
  else LabelPay totalAmount.

(** [{message && <div className={`message ${...}`}>{message}</div>}]:
    the class and the text of the message box, if it is rendered. *)
Definition message_box (st : State) : option (string * string) :=
  if JS.truthy (message st) then
    Some ((if bool_decide (paymentStatus st = succeeded)
           then "message success" else "message error"),
          message st)
  else None.

(** Every [confirmPayment] call in the log carries the form's one set of
    arguments. *)
Definition confirm_args_fixed (env : Env) (st : State) : Prop :=
  ∀ e, e ∈ effects st → is_confirm e = true →
    e = ConfirmPayment (origin env +:+ "/completion") "if_required".

(** After a success the form shows the success text and waits for
    nothing. *)
Definition success_inv (env : Env) (st : State) : Prop :=
  reachable_inv env st
  ∧ (paymentStatus st = succeeded →
       message st = "Payment successful! Thank you for your purchase."
       ∧ awaiting st = O).

End CheckoutFormView.

(** ** server/index.ts: the webhook endpoint *)

Module Webhook.

(** The fields of a verified event the handler reads: [event.type] and
    [event.data.object.id]. *)
Record Event := mkEvent {
  event_type : string;
  object_id : string
}.

(** [stripe.webhooks.constructEvent] returns the event or throws; the
    handler reads the thrown error's [message]. *)
Inductive Verified :=
  | Constructed (event : Event)
  | Threw (error_message : option string).

(** [console.log(label, value)] *)
Record LogLine := mkLogLine {
  label : string;
  value : string
}.

Inductive Reply :=
  | SendText (http_status : Z) (text : string)    (* [res.status(c).send(t)] *)
  | SendReceived.                                 (* [res.json({ received: true })] *)

(** A value inside a template literal: [undefined] prints as
    "undefined". *)
Definition interpolate (s : option string) : string :=
  default "undefined" s.

(** [!s] for a header or environment value that may be missing. *)
Definition missing (s : option string) : bool :=
  match s with
  | None => true
  | Some v => negb (JS.truthy v)
  end.

Section Handler.

(** [stripe.webhooks.constructEvent(payload, sig, secret)] *)
Variable constructEvent : string → string → string → Verified.

(** The [switch (event.type)] of the handler. *)
Definition log_event (event : Event) : LogLine :=
  if String.eqb (event_type event) "payment_intent.succeeded" then
    mkLogLine "💰 Payment succeeded:" (object_id event)
  else if String.eqb (event_type event) "payment_intent.payment_failed" then
    mkLogLine "❌ Payment failed:" (object_id event)
  else
    mkLogLine "Unhandled event type:" (event_type event).

(** [app.post('/api/webhook', ...)]: the reply and what [console.log]
    printed.  [sig] is the [stripe-signature] header, [webhookSecret] is
    [process.env.STRIPE_WEBHOOK_SECRET]. *)
Definition webhook (webhookSecret sig : option string) (payload : string)
  : Reply * list LogLine :=
  if missing webhookSecret || missing sig then
    (SendText 400 "Webhook signature required", [])
  else
    match constructEvent payload (default "" sig) (default "" webhookSecret) with
    | Constructed event => (SendReceived, [log_event event])
    | Threw msg => (SendText 400 ("Webhook Error: " +:+ interpolate msg), [])
    end.

End Handler.

End Webhook.

(** ** server/index.ts: the shapes of a response *)

Module Responses.
Import Relay.

(** An error body goes with status 400 or 500 and a text that is not
    empty; every other body goes with status 200. *)
Definition well_formed (r : Response) : Prop :=
  match body r with
  | ErrorJson e => (http_status r = 400 ∨ http_status r = 500) ∧ e ≠ ""
  | _ => http_status r = 200
  end.

End Responses.

(** ** One checkout across both halves *)

Module EndToEnd.

(** The body the relay parses from the frontend's request: the two
    fields [JSON.stringify] wrote. *)
Definition parsed_body (req : StripeCheckout.Request) : Relay.CreateBody :=
  Relay.mkCreateBody (Some (StripeCheckout.body_amount req))
                     (Some (StripeCheckout.body_currency req)) None.

(** The processor call the relay makes for a request of the wrapper:
    the wrapper always sends "usd" and no payment method types. *)
Definition relayed_call (a : Z) : Relay.Call :=
  Relay.PaymentIntentsCreate (Relay.mkCreateParams a "usd" true None).

Section Processor.

Context {Store : Type}.
Variable processor : Relay.Call → Store → Relay.Settled * Store.

(** The relay serves the request; the frontend gets its response. *)
Definition exchange (req : StripeCheckout.Request) (s : Store)
  : JS.Settled StripeCheckout.HttpResponse * Store :=
  let '(r, s') :=
    Relay.serve processor (Relay.create_payment_intent (parsed_body req)) s in
  (Wire.delivered r, s').

(** The wrapper is mounted with a total and the relay's answer to its
    request arrives. *)
Definition first_answer (api : option string) (amount : Z) (s : Store)
  : StripeCheckout.State * Store :=
  let st := StripeCheckout.mount api amount in
  let '(r, s') := exchange (StripeCheckout.create_request api amount) s in
  (StripeCheckout.step api (StripeCheckout.FetchSettled 0 r) st, s').

(** The same with one click on "Try Again" before the answer arrives:
    below the minimum the click sends the first request, otherwise the
    button is not there and the request of the effect is the one
    answered. *)
Definition retry_answer (api : option string) (amount : Z) (s : Store)
  : StripeCheckout.State * Store :=
  let st := StripeCheckout.step api StripeCheckout.ClickTryAgain
              (StripeCheckout.mount api amount) in
  let '(r, s') := exchange (StripeCheckout.create_request api amount) s in
  (StripeCheckout.step api (StripeCheckout.FetchSettled 0 r) st, s').

End Processor.

End EndToEnd.

(** * Properties *)

(** ** The intent requester *)

Section StripeCheckoutFacts.
Import JS StripeCheckout.

Variable api : option string.

(** The guard of the effect: below the minimum it stores the message
    and fetches nothing. *)
Lemma effect_below_minimum (st : State) :
  totalAmount st < 50 →
  effect api st = setLoading false (setError "Minimum order amount is $0.50" st).
Proof.
  intros Hlt. unfold effect.
  destruct (Z.ltb_spec (totalAmount st) 50) as [_|Hge]; [reflexivity | lia].
Qed.

Lemma mount_below_minimum (a : Z) :
  a < 50 →
  mount api a = mkState "" "Minimum order amount is $0.50" false a [] ∅.
Proof.
  intros Hlt. unfold mount. rewrite effect_below_minimum by (simpl; lia).
  reflexivity.
Qed.

(** [createPaymentIntent] itself does not look at the amount. *)
Lemma createPaymentIntent_network (st : State) :
  network (createPaymentIntent api st)
  = network st ++ [create_request api (totalAmount st)].
Proof. reflexivity. Qed.

Lemma retry_below_minimum (a : Z) :
  a < 50 →
  network (step api ClickTryAgain (mount api a)) = [create_request api a].
Proof.
  intros Hlt. rewrite mount_below_minimum by assumption. reflexivity.
Qed.

End StripeCheckoutFacts.

(** C1 (the code departs from the claim).  With a total of 25 the effect
    stops at its guard: the component shows "Minimum order amount is
    $0.50" together with the "Try Again" button and has sent nothing.
    The button calls [createPaymentIntent] directly, which has no guard
    of its own: one click sends the POST for amount 25 to the relay. *)
Theorem retry_sends_amount_below_minimum :
  let st := StripeCheckout.mount None 25 in
  StripeCheckout.render st
    = StripeCheckout.ErrorView "Minimum order amount is $0.50"
  ∧ StripeCheckout.network st = []
  ∧ StripeCheckout.retry_button_shown st = true
  ∧ StripeCheckout.network (StripeCheckout.step None StripeCheckout.ClickTryAgain st)
    = [StripeCheckout.mkRequest "/api/create-payment-intent" "POST"
         "application/json" 25 "usd"]
  ∧ StripeCheckout.error (StripeCheckout.step None StripeCheckout.ClickTryAgain st) = ""
  ∧ StripeCheckout.loading (StripeCheckout.step None StripeCheckout.ClickTryAgain st) = true.
Proof. vm_compute. repeat split. Qed.

Section StripeCheckoutRuns.
Import JS StripeCheckout.

Variable api : option string.

Lemma run_cons (ev : Event) (evs : list Event) (st : State) :
  run api (ev :: evs) st = run api evs (step api ev st).
Proof. reflexivity. Qed.

(** A property every step keeps holds after every run. *)
Lemma run_invariant (P : State → Prop) :
  (∀ ev st, P st → P (step api ev st)) →
  ∀ evs st, P st → P (run api evs st).
Proof.
  intros Hstep evs. induction evs as [|ev evs IH]; intros st Hst.
  - exact Hst.
  - rewrite run_cons. apply IH, Hstep, Hst.
Qed.

Lemma only_create_fetch (a : Z) (st : State) :
  only_create api st → only_create api (fetch (create_request api a) st).
Proof.
  intros H req. unfold fetch. simpl. rewrite elem_of_app, list_elem_of_singleton.
  intros [Hin | ->]; [apply H, Hin | reflexivity].
Qed.

Lemma only_create_createPaymentIntent (st : State) :
  only_create api st → only_create api (createPaymentIntent api st).
Proof. intros H. unfold createPaymentIntent. apply only_create_fetch. exact H. Qed.

Lemma only_create_effect (st : State) :
  only_create api st → only_create api (effect api st).
Proof.
  intros H. unfold effect. destruct (totalAmount st <? 50).
  - exact H.
  - apply only_create_createPaymentIntent, H.
Qed.

Lemma network_resume (r : Settled HttpResponse) (st : State) :
  network (createPaymentIntent_resume r st) = network st.
Proof.
  unfold createPaymentIntent_resume.
  destruct r as [[[] [data|err]]|err]; reflexivity.
Qed.

Lemma only_create_step (ev : Event) (st : State) :
  only_create api st → only_create api (step api ev st).
Proof.
  intros H. destruct ev as [a| |i r]; simpl.
  - destruct (a =? totalAmount st); [exact H|]. apply only_create_effect, H.
  - destruct (retry_button_shown st); [|exact H].
    apply only_create_createPaymentIntent, H.
  - destruct (in_flight st !! i); [|exact H].
    intros req. rewrite network_resume. apply H.
Qed.

Lemma only_create_mount (a : Z) : only_create api (mount api a).
Proof.
  unfold mount. apply only_create_effect. intros req Hin. simpl in Hin.
  by apply elem_of_nil in Hin.
Qed.

End StripeCheckoutRuns.

(** Two paths below the same base differ when their last segments do. *)
Lemma append_inj_l (p a b : string) : p +:+ a = p +:+ b → a = b.
Proof.
  induction p as [|c p IH]; simpl; intros H; [exact H|].
  injection H as H. apply IH, H.
Qed.

(** C3 (what the code does).  The mounted component keeps no attempt
    token: when a request that is still in flight settles, whether or
    not a newer request has been started since, [loading] becomes
    false, and
    - an ok response with a [clientSecret] replaces the stored secret
      and leaves the stored error as it is;
    - a response that is not ok, with an [error] text that is not
      empty, replaces the stored error with that text and leaves the
      stored secret as it is;
    - a fetch rejected with an [Error] replaces the stored error with
      the error's message and leaves the stored secret as it is. *)
Theorem settled_response_is_always_written
    (api : option string) (st : StripeCheckout.State) (id : nat)
    (req : StripeCheckout.Request) (r : JS.Settled StripeCheckout.HttpResponse) :
  StripeCheckout.in_flight st !! id = Some req →
  let st' := StripeCheckout.step api (StripeCheckout.FetchSettled id r) st in
  StripeCheckout.loading st' = false
  ∧ StripeCheckout.in_flight st' = delete id (StripeCheckout.in_flight st)
  ∧ (∀ e secret pid,
       r = JS.Fulfilled (StripeCheckout.mkHttpResponse true
             (JS.Fulfilled (StripeCheckout.mkResponseBody e (Some secret) pid))) →
       StripeCheckout.clientSecret st' = secret
       ∧ StripeCheckout.error st' = StripeCheckout.error st)
  ∧ (∀ msg secret pid,
       r = JS.Fulfilled (StripeCheckout.mkHttpResponse false
             (JS.Fulfilled (StripeCheckout.mkResponseBody (Some msg) secret pid))) →
       msg ≠ "" →
       StripeCheckout.error st' = msg
       ∧ StripeCheckout.clientSecret st' = StripeCheckout.clientSecret st)
  ∧ (∀ msg,
       r = JS.Rejected (JS.ThrownError msg) →
       StripeCheckout.error st' = msg
       ∧ StripeCheckout.clientSecret st' = StripeCheckout.clientSecret st).
Proof.
  intros Hin st'. subst st'. simpl. rewrite Hin.
  split; [|split; [|split; [|split]]].
  - reflexivity.
  - unfold StripeCheckout.createPaymentIntent_resume.
    destruct r as [[[] [data|err]]|err]; reflexivity.
  - intros e secret pid ->. split; reflexivity.
  - intros msg secret pid -> Hne. simpl.
    destruct msg; [congruence | split; reflexivity].
  - intros msg ->. split; reflexivity.
Qed.

Lemma settled_response_is_always_written_witness :
  let ok100 := JS.Fulfilled (StripeCheckout.mkHttpResponse true
                 (JS.Fulfilled (StripeCheckout.mkResponseBody None
                                  (Some "secret_for_100") (Some "pi_100")))) in
  let st := StripeCheckout.step None (StripeCheckout.PropChange 200)
              (StripeCheckout.mount None 100) in
  StripeCheckout.in_flight st !! 0%nat
    = Some (StripeCheckout.create_request None 100)
  ∧ StripeCheckout.loading
      (StripeCheckout.step None (StripeCheckout.FetchSettled 0 ok100) st) = false
  ∧ StripeCheckout.clientSecret
      (StripeCheckout.step None (StripeCheckout.FetchSettled 0 ok100) st)
    = "secret_for_100".
Proof.
  intros ok100 st.
  assert (Hin : StripeCheckout.in_flight st !! 0%nat
                = Some (StripeCheckout.create_request None 100))
    by (vm_compute; reflexivity).
  split; [exact Hin|].
  destruct (settled_response_is_always_written None st 0 _ ok100 Hin)
    as (Hload & _ & Hok & _).
  split; [exact Hload|].
  exact (proj1 (Hok None "secret_for_100" (Some "pi_100") eq_refl)).
Defined.

(** C3 (the claim fails).  The total changes from 100 to 200 while the
    first request is in flight; the second request completes first and
    its secret is stored.  When the superseded first request completes
    afterwards, its secret overwrites the newer one. *)
Lemma stale_response_overwrites_newer_attempt :
  let ok secret pid :=
    JS.Fulfilled (StripeCheckout.mkHttpResponse true
      (JS.Fulfilled (StripeCheckout.mkResponseBody None (Some secret) (Some pid)))) in
  let st :=
    StripeCheckout.run None
      [StripeCheckout.PropChange 200;
       StripeCheckout.FetchSettled 1 (ok "secret_for_200" "pi_200")]
      (StripeCheckout.mount None 100) in
  let st' :=
    StripeCheckout.step None
      (StripeCheckout.FetchSettled 0 (ok "secret_for_100" "pi_100")) st in
  StripeCheckout.network st
    = [StripeCheckout.create_request None 100;
       StripeCheckout.create_request None 200]
  ∧ StripeCheckout.totalAmount st = 200
  ∧ StripeCheckout.render st = StripeCheckout.CheckoutView "secret_for_200"
  ∧ StripeCheckout.totalAmount st' = 200
  ∧ StripeCheckout.render st' = StripeCheckout.CheckoutView "secret_for_100"
  ∧ StripeCheckout.clientSecret st' ≠ StripeCheckout.clientSecret st.
Proof. vm_compute. repeat split. discriminate. Qed.

(** ** The confirmation orchestrator *)

Section CheckoutFormFacts.
Import JS CheckoutForm.

Variable env : Env.

Lemma form_run_cons (ev : Event) (evs : list Event) (st : State) :
  run env (ev :: evs) st = run env evs (step env ev st).
Proof. reflexivity. Qed.

Lemma form_run_invariant (P : State → Prop) :
  (∀ ev st, P st → P (step env ev st)) →
  ∀ evs st, P st → P (run env evs st).
Proof.
  intros Hstep evs. induction evs as [|ev evs IH]; intros st Hst.
  - exact Hst.
  - rewrite form_run_cons. apply IH, Hstep, Hst.
Qed.

(** The button is disabled while processing and after success. *)
Lemma disabled_processing (st : State) :
  paymentStatus st = processing → pay_button_disabled env st = true.
Proof.
  intros H. unfold pay_button_disabled. rewrite H.
  destruct (stripe env); reflexivity.
Qed.

Lemma disabled_succeeded (st : State) :
  paymentStatus st = succeeded → pay_button_disabled env st = true.
Proof.
  intros H. unfold pay_button_disabled. rewrite H.
  destruct (stripe env); reflexivity.
Qed.

Lemma click_processing (st : State) :
  paymentStatus st = processing → step env ClickPay st = st.
Proof. intros H. simpl. rewrite disabled_processing by exact H. reflexivity. Qed.

Lemma clicks_processing (n : nat) (st : State) :
  paymentStatus st = processing → run env (repeat ClickPay n) st = st.
Proof.
  intros H. induction n as [|n IH]; [reflexivity|].
  simpl repeat. rewrite form_run_cons, click_processing by exact H. exact IH.
Qed.

(** An accepted submit: status, message, one more call, one more
    promise. *)
Lemma handleSubmit_ready (st : State) :
  stripe env = true → elements env = true →
  handleSubmit env st
  = mkState processing ""
      (effects st ++ [ConfirmPayment (origin env +:+ "/completion") "if_required"])
      (S (awaiting st)).
Proof. intros Hs He. unfold handleSubmit. rewrite Hs, He. reflexivity. Qed.

Lemma count_emit (e e' : Effect) (st : State) :
  count e (emit e' st)
  = (count e st + (if bool_decide (e' = e) then 1 else 0))%nat.
Proof.
  unfold count, emit. simpl. rewrite filter_app, length_app. f_equal.
  rewrite filter_cons, filter_nil.
  destruct (decide (e' = e)) as [Heq|Hne].
  - rewrite bool_decide_eq_true_2 by exact Heq. reflexivity.
  - rewrite bool_decide_eq_false_2 by exact Hne. reflexivity.
Qed.


Lemma reachable_inv_initial : reachable_inv env initial.
Proof.
  split; [simpl; lia|]. split; [discriminate | reflexivity].
Qed.

Lemma reachable_inv_intro (st : State) (a : nat) (p : PaymentStatus) (c : nat) :
  awaiting st = a → paymentStatus st = p → count OnSuccess st = c →
  (a ≤ 1)%nat → (a = 1%nat → p = processing ∧ message st = "") →
  (callback_returns env →
     c = (if bool_decide (p = succeeded) && has_callback env then 1 else 0)%nat) →
  reachable_inv env st.
Proof. intros <- <- <- ? ? ?. split; [assumption|]. split; assumption. Qed.

(** What the callback adds to the log, and whether it throws. *)
Lemma call_onSuccess_cases (st : State) :
  (onSuccess env = None ∧ call_onSuccess env st = (st, None))
  ∨ (onSuccess env = Some CallbackReturns
     ∧ call_onSuccess env st = (emit OnSuccess st, None))
  ∨ (∃ err, onSuccess env = Some (CallbackThrows err)
            ∧ call_onSuccess env st = (emit OnSuccess st, Some err)).
Proof.
  unfold call_onSuccess.
  destruct (onSuccess env) as [[|err]|]; [right; left | right; right; exists err | left];
    split; reflexivity.
Qed.

Lemma reachable_inv_step (ev : Event) (st : State) :
  reachable_inv env st → reachable_inv env (step env ev st).
Proof.
  intros Hinv. pose proof Hinv as (Hle & Hproc & Hcnt).
  destruct ev as [|r]; simpl.
  - destruct (pay_button_disabled env st) eqn:Hdis; [exact Hinv|].
    unfold pay_button_disabled in Hdis.
    apply orb_false_elim in Hdis as [Hdis Hsucc].
    apply orb_false_elim in Hdis as [Hstripe Hnp].
    apply bool_decide_eq_false in Hnp, Hsucc.
    assert (Ha : awaiting st = O).
    { destruct (awaiting st) as [|[|n]]; [reflexivity| |lia].
      exfalso. apply Hnp, Hproc. reflexivity. }
    rewrite bool_decide_eq_false_2 in Hcnt by exact Hsucc. simpl in Hcnt.
    unfold handleSubmit. rewrite Hstripe. simpl.
    destruct (elements env); simpl.
    + eapply (reachable_inv_intro _ 1 processing); try reflexivity.
      * simpl. by rewrite Ha.
      * by split.
      * intros Hret. rewrite <- (Hcnt Hret). unfold count. simpl.
        rewrite filter_app, length_app. simpl. lia.
    + eapply (reachable_inv_intro _ 0 (paymentStatus st));
        try reflexivity; try assumption; try lia.
      intros Hret. rewrite bool_decide_eq_false_2 by exact Hsucc.
      exact (Hcnt Hret).
  - destruct (awaiting st) as [|n] eqn:Ha; [exact Hinv|].
    assert (n = O) by lia. subst n.
    destruct (Hproc eq_refl) as [Hp Hm]. rewrite Hp in Hcnt. simpl in Hcnt.
    unfold handleSubmit_resume.
    destruct r as [[[err|] [pi|]]|err]; simpl.
    1,2,5: eapply (reachable_inv_intro _ 0 failed);
             try reflexivity; try (simpl; by rewrite ?Ha); try lia.
    2: eapply (reachable_inv_intro _ 0 processing);
         try reflexivity; try (simpl; by rewrite ?Ha); try lia.
    destruct (String.eqb (pi_status pi) "succeeded").
    + destruct (call_onSuccess_cases
                  (setMessage "Payment successful! Thank you for your purchase."
                     (setPaymentStatus succeeded (wake st))))
        as [[Hcb ->] | [[Hcb ->] | (err & Hcb & ->)]].
      * eapply (reachable_inv_intro _ 0 succeeded);
          try reflexivity; try (simpl; by rewrite ?Ha); try lia.
        intros Hret. unfold has_callback. rewrite Hcb. exact (Hcnt Hret).
      * eapply (reachable_inv_intro _ 0 succeeded);
          try reflexivity; try (simpl; by rewrite ?Ha); try lia.
        intros Hret. unfold has_callback. rewrite Hcb. simpl.
        rewrite count_emit. simpl.
        change (count OnSuccess st + 1 = 1)%nat. rewrite (Hcnt Hret). reflexivity.
      * eapply (reachable_inv_intro _ 0 failed);
          try reflexivity; try (simpl; by rewrite ?Ha); try lia.
        intros Hret. exfalso. exact (Hret err Hcb).
    + eapply (reachable_inv_intro _ 0 processing);
         try reflexivity; try (simpl; by rewrite ?Ha); try lia.
Qed.

Lemma reachable_inv_run (evs : list Event) :
  reachable_inv env (run env evs initial).
Proof.
  apply form_run_invariant; [apply reachable_inv_step | apply reachable_inv_initial].
Qed.

End CheckoutFormFacts.

(** C2.  A submit that the form accepts puts it in [processing] and
    makes one [stripe.confirmPayment] call.  From then on the pay button
    is disabled: in any [processing] state a further confirm request
    from the UI leaves the state as it is, so however many requests
    follow, the state, and with it the number of processor calls, stays
    what the first submit made it. *)
Theorem repeated_confirm_is_rejected
    (env : CheckoutForm.Env) (st0 : CheckoutForm.State) (n : nat) :
  CheckoutForm.stripe env = true →
  CheckoutForm.elements env = true →
  CheckoutForm.pay_button_disabled env st0 = false →
  let st1 := CheckoutForm.step env CheckoutForm.ClickPay st0 in
  CheckoutForm.paymentStatus st1 = CheckoutForm.processing
  ∧ CheckoutForm.confirm_calls st1 = S (CheckoutForm.confirm_calls st0)
  ∧ (∀ st, CheckoutForm.paymentStatus st = CheckoutForm.processing →
       CheckoutForm.step env CheckoutForm.ClickPay st = st)
  ∧ CheckoutForm.run env (repeat CheckoutForm.ClickPay n) st1 = st1
  ∧ CheckoutForm.confirm_calls
      (CheckoutForm.run env (repeat CheckoutForm.ClickPay (S n)) st0)
    = S (CheckoutForm.confirm_calls st0).
Proof.
  intros Hs He Hdis st1.
  assert (Hst1 : st1 = CheckoutForm.handleSubmit env st0).
  { subst st1. simpl. rewrite Hdis. reflexivity. }
  assert (Hp : CheckoutForm.paymentStatus st1 = CheckoutForm.processing).
  { rewrite Hst1, handleSubmit_ready by assumption. reflexivity. }
  assert (Hc : CheckoutForm.confirm_calls st1 = S (CheckoutForm.confirm_calls st0)).
  { rewrite Hst1, handleSubmit_ready by assumption.
    unfold CheckoutForm.confirm_calls. simpl.
    rewrite filter_app, length_app. simpl. lia. }
  split; [exact Hp|]. split; [exact Hc|].
  split; [intros st; apply click_processing|].
  split; [apply clicks_processing, Hp|].
  simpl repeat. rewrite form_run_cons. fold st1.
  rewrite clicks_processing by exact Hp. exact Hc.
Qed.

Lemma repeated_confirm_is_rejected_witness :
  let env := CheckoutForm.mkEnv true true (Some CheckoutForm.CallbackReturns)
    "https://shop.example" in
  let st1 := CheckoutForm.step env CheckoutForm.ClickPay CheckoutForm.initial in
  CheckoutForm.pay_button_disabled env CheckoutForm.initial = false
  ∧ CheckoutForm.step env CheckoutForm.ClickPay st1 = st1
  ∧ CheckoutForm.confirm_calls
      (CheckoutForm.run env (repeat CheckoutForm.ClickPay 3) CheckoutForm.initial)
    = 1%nat.
Proof.
  intros env st1. split; [reflexivity|].
  destruct (repeated_confirm_is_rejected env CheckoutForm.initial 2
              eq_refl eq_refl eq_refl) as (Hp & _ & Hnoop & _ & Hcalls).
  split; [exact (Hnoop st1 Hp) | exact Hcalls].
Defined.

(** C4 (what the code does).  When [confirmPayment] resolves with an
    [error], the status becomes [failed].  The message shown is the
    processor's message, character for character, when the error carries
    a non-empty one; when it carries none, or an empty one, the form
    shows the fixed text "An error occurred during payment". *)
Theorem processor_error_sets_failed
    (env : CheckoutForm.Env) (st : CheckoutForm.State)
    (err : CheckoutForm.StripeError) (pi : option CheckoutForm.PaymentIntent) :
  CheckoutForm.awaiting st ≠ O →
  let st' :=
    CheckoutForm.step env
      (CheckoutForm.ConfirmSettled
         (JS.Fulfilled (CheckoutForm.mkConfirmResult (Some err) pi))) st in
  CheckoutForm.paymentStatus st' = CheckoutForm.failed
  ∧ (∀ m, CheckoutForm.error_message err = Some m → m ≠ "" →
       CheckoutForm.message st' = m)
  ∧ (CheckoutForm.error_message err = None
     ∨ CheckoutForm.error_message err = Some "" →
       CheckoutForm.message st' = "An error occurred during payment")
  ∧ CheckoutForm.effects st' = CheckoutForm.effects st.
Proof.
  intros Ha st'. subst st'. simpl.
  destruct (CheckoutForm.awaiting st) as [|k]; [congruence|]. simpl.
  split; [reflexivity|]. split; [|split; [|reflexivity]].
  - intros m -> Hne. destruct m; [congruence | reflexivity].
  - intros [-> | ->]; reflexivity.
Qed.

Lemma processor_error_sets_failed_witness :
  let env := CheckoutForm.mkEnv true true (Some CheckoutForm.CallbackReturns)
    "https://shop.example" in
  let st := CheckoutForm.step env CheckoutForm.ClickPay CheckoutForm.initial in
  let declined :=
    CheckoutForm.mkStripeError (Some "Your card was declined.") in
  let st' :=
    CheckoutForm.step env
      (CheckoutForm.ConfirmSettled
         (JS.Fulfilled (CheckoutForm.mkConfirmResult (Some declined) None))) st in
  CheckoutForm.awaiting st ≠ O
  ∧ CheckoutForm.paymentStatus st' = CheckoutForm.failed
  ∧ CheckoutForm.message st' = "Your card was declined.".
Proof.
  intros env st declined st'.
  assert (Ha : CheckoutForm.awaiting st ≠ O) by discriminate.
  split; [exact Ha|].
  destruct (processor_error_sets_failed env st declined None Ha)
    as (Hf & Hm & _).
  split; [exact Hf|].
  apply (Hm "Your card was declined." eq_refl). discriminate.
Defined.

(** C4 (the claim fails).  The processor reports an error whose message
    is empty, or an error with no message at all: the form shows a text
    of its own, which is not the processor's. *)
Lemma processor_error_without_message_is_replaced :
  let env := CheckoutForm.mkEnv true true (Some CheckoutForm.CallbackReturns)
    "https://shop.example" in
  let st := CheckoutForm.step env CheckoutForm.ClickPay CheckoutForm.initial in
  let settle err :=
    CheckoutForm.step env
      (CheckoutForm.ConfirmSettled
         (JS.Fulfilled (CheckoutForm.mkConfirmResult (Some err) None))) st in
  CheckoutForm.paymentStatus st = CheckoutForm.processing
  ∧ CheckoutForm.message (settle (CheckoutForm.mkStripeError (Some "")))
    = "An error occurred during payment"
  ∧ CheckoutForm.message (settle (CheckoutForm.mkStripeError (Some ""))) ≠ ""
  ∧ Some (CheckoutForm.message (settle (CheckoutForm.mkStripeError None)))
    ≠ CheckoutForm.error_message (CheckoutForm.mkStripeError None).
Proof. vm_compute. repeat split; discriminate. Qed.



(** C6.  When [useStripe()] or [useElements()] has returned no instance,
    [handleSubmit] stops at once: it sets the message "Stripe is not
    loaded. Please refresh the page.", leaves the status as it was,
    calls nothing (no [confirmPayment], no callback) and awaits
    nothing. *)
Theorem confirm_when_not_loaded
    (env : CheckoutForm.Env) (st : CheckoutForm.State) :
  CheckoutForm.stripe env = false ∨ CheckoutForm.elements env = false →
  let st' := CheckoutForm.handleSubmit env st in
  CheckoutForm.message st' = "Stripe is not loaded. Please refresh the page."
  ∧ CheckoutForm.paymentStatus st' = CheckoutForm.paymentStatus st
  ∧ CheckoutForm.effects st' = CheckoutForm.effects st
  ∧ CheckoutForm.awaiting st' = CheckoutForm.awaiting st
  ∧ CheckoutForm.confirm_calls st' = CheckoutForm.confirm_calls st.
Proof.
  intros Hnot st'. subst st'. unfold CheckoutForm.handleSubmit.
  assert (Hguard : negb (CheckoutForm.stripe env)
                   || negb (CheckoutForm.elements env) = true).
  { destruct Hnot as [-> | ->]; [reflexivity | apply orb_true_r]. }
  rewrite Hguard. repeat split.
Qed.

Lemma confirm_when_not_loaded_witness :
  let env := CheckoutForm.mkEnv true false (Some CheckoutForm.CallbackReturns)
      "https://shop.example" in
  let st' := CheckoutForm.step env CheckoutForm.ClickPay CheckoutForm.initial in
  CheckoutForm.message st' = "Stripe is not loaded. Please refresh the page."
  ∧ CheckoutForm.paymentStatus st' = CheckoutForm.idle
  ∧ CheckoutForm.effects st' = [].
Proof.
  intros env st'.
  destruct (confirm_when_not_loaded env CheckoutForm.initial
              (or_intror eq_refl)) as (Hm & Hp & He & _).
  split; [exact Hm|]. split; [exact Hp | exact He].
Defined.

(** The effect log of the form holds [confirmPayment] calls and callback
    invocations only, and the status has the four values of
    [types.ts]. *)
Lemma PaymentStatus_values (s : CheckoutForm.PaymentStatus) :
  s ∈ [CheckoutForm.idle; CheckoutForm.processing;
       CheckoutForm.succeeded; CheckoutForm.failed].
Proof. destruct s; set_solver. Qed.

(** C9.  In any state the form can reach with a confirmation
    outstanding, when the confirmation resolves with no error and a
    payment intent whose status is not "succeeded" (or with no payment
    intent), the form stays as the submit left it: status [processing],
    empty message, nothing called, and the pay button disabled.  The
    status has no further value than idle, processing, succeeded and
    failed.  The only relay request the frontend ever sends is the POST
    to [create-payment-intent]; none goes to [confirm-payment]. *)
Theorem unresolved_confirmation_stays_processing
    (env : CheckoutForm.Env) (evs : list CheckoutForm.Event)
    (pi : option CheckoutForm.PaymentIntent) :
  (∀ p, pi = Some p → CheckoutForm.pi_status p ≠ "succeeded") →
  let st := CheckoutForm.run env evs CheckoutForm.initial in
  CheckoutForm.awaiting st ≠ O →
  let st' :=
    CheckoutForm.step env
      (CheckoutForm.ConfirmSettled
         (JS.Fulfilled (CheckoutForm.mkConfirmResult None pi))) st in
  (CheckoutForm.paymentStatus st' = CheckoutForm.processing
   ∧ CheckoutForm.message st' = ""
   ∧ CheckoutForm.effects st' = CheckoutForm.effects st
   ∧ CheckoutForm.pay_button_disabled env st' = true)
  ∧ (∀ s : CheckoutForm.PaymentStatus,
       s ∈ [CheckoutForm.idle; CheckoutForm.processing;
            CheckoutForm.succeeded; CheckoutForm.failed])
  ∧ (∀ api amount events req,
       req ∈ StripeCheckout.network
               (StripeCheckout.run api events (StripeCheckout.mount api amount)) →
       StripeCheckout.url req
         = StripeCheckout.apiUrl api +:+ "/create-payment-intent"
       ∧ StripeCheckout.url req
         ≠ StripeCheckout.apiUrl api +:+ "/confirm-payment").
Proof.
  intros Hpi st Ha st'.
  destruct (reachable_inv_run env evs) as (Hle & Hproc & _).
  fold st in Hle, Hproc.
  assert (Ha1 : CheckoutForm.awaiting st = 1%nat) by lia.
  destruct (Hproc Ha1) as [Hp Hm].
  assert (Hst' : st' = CheckoutForm.wake st).
  { subst st'. simpl. rewrite Ha1. simpl.
    destruct pi as [p|]; [|reflexivity].
    destruct (String.eqb_spec (CheckoutForm.pi_status p) "succeeded") as [Heq|_];
      [|reflexivity].
    exfalso. exact (Hpi p eq_refl Heq). }
  split; [|split].
  - rewrite Hst'. repeat split; try assumption.
    apply disabled_processing. exact Hp.
  - apply PaymentStatus_values.
  - intros api amount events req Hin.
    assert (Hurl : StripeCheckout.url req
                   = StripeCheckout.apiUrl api +:+ "/create-payment-intent").
    { revert req Hin.
      apply (run_invariant api (StripeCheckout.only_create api));
        [apply only_create_step | apply only_create_mount]. }
    split; [exact Hurl|].
    rewrite Hurl. intros Heq. apply append_inj_l in Heq. discriminate.
Qed.

Lemma unresolved_confirmation_stays_processing_witness :
  let env := CheckoutForm.mkEnv true true (Some CheckoutForm.CallbackReturns)
    "https://shop.example" in
  let st := CheckoutForm.run env [CheckoutForm.ClickPay] CheckoutForm.initial in
  let st' :=
    CheckoutForm.step env
      (CheckoutForm.ConfirmSettled
         (JS.Fulfilled (CheckoutForm.mkConfirmResult None
            (Some (CheckoutForm.mkPaymentIntent "requires_action"))))) st in
  CheckoutForm.awaiting st ≠ O
  ∧ CheckoutForm.paymentStatus st' = CheckoutForm.processing
  ∧ CheckoutForm.message st' = ""
  ∧ CheckoutForm.pay_button_disabled env st' = true.
Proof.
  intros env st st'.
  assert (Ha : CheckoutForm.awaiting st ≠ O) by discriminate.
  assert (Hpi : ∀ p, Some (CheckoutForm.mkPaymentIntent "requires_action") = Some p →
                     CheckoutForm.pi_status p ≠ "succeeded").
  { intros p Hp. injection Hp as <-. discriminate. }
  destruct (unresolved_confirmation_stays_processing env [CheckoutForm.ClickPay]
              _ Hpi Ha) as ((Hp & Hm & _ & Hd) & _).
  split; [exact Ha|]. split; [exact Hp|]. split; [exact Hm | exact Hd].
Defined.

(** ** The relay *)

Section RelayFacts.
Import Relay.

Lemma amount_rejected_lt (a : Z) : a < 50 → amount_rejected (Some a) = true.
Proof.
  intros H. unfold amount_rejected.
  destruct (Z.ltb_spec a 50); [apply orb_true_r | lia].
Qed.

Lemma amount_rejected_ge (a : Z) : 50 ≤ a → amount_rejected (Some a) = false.
Proof.
  intros H. unfold amount_rejected.
  destruct (Z.eqb_spec a 0); [lia|].
  destruct (Z.ltb_spec a 50); [lia | reflexivity].
Qed.

(** The handler of a create request that passes validation, as one
    call and what follows it. *)
Lemma create_payment_intent_valid (b : CreateBody) (a : Z) :
  amount b = Some a → 50 ≤ a →
  ∃ k,
    create_payment_intent b
    = Await (PaymentIntentsCreate
               (mkCreateParams a (default "usd" (currency b)) true
                               (paymentMethodTypes b))) k
    ∧ (∀ pi, k (Fulfilled pi)
             = Respond (mkResponse 200 (IntentJson (client_secret pi) (id pi))))
    ∧ (∀ msg, k (Rejected msg)
              = Respond (mkResponse 500
                           (ErrorJson
                              (JS.or_else msg "Failed to create payment intent")))).
Proof.
  intros Ha Hge. unfold create_payment_intent.
  rewrite Ha, amount_rejected_ge by exact Hge.
  eexists. split; [reflexivity|]. split; reflexivity.
Qed.

Context {Store : Type}.
Variable processor : Call → Store → Settled * Store.

(** A handler that leaves the store alone answers every repetition of
    a request as it answered the first. *)
Lemma serve_n_read_only (h : Handler) (s : Store) (n : nat) :
  (serve processor h s).2 = s →
  serve_n processor n h s = (repeat (serve processor h s).1 n, s).
Proof.
  intros Hs. induction n as [|n IH]; [reflexivity|].
  simpl. destruct (serve processor h s) as [r s'] eqn:Hserve.
  simpl in Hs. subst s'. rewrite IH. reflexivity.
Qed.

End RelayFacts.

(** C7.  For a create-intent request with amount [a]: if [a < 50] the
    relay answers 400 with the text "Amount must be at least $0.50 USD"
    and makes no processor call at all; if [a >= 50] it makes exactly
    one call, [paymentIntents.create], and answers 200 with the intent's
    [clientSecret] and [paymentIntentId] when the processor accepts,
    and 500 with an [error] string (the processor's message, or a fixed
    text when there is none) when the processor fails. *)
Theorem create_intent_enforces_minimum
    (b : Relay.CreateBody) (a : Z)
    (Store : Type) (processor : Relay.Call → Store → Relay.Settled * Store)
    (s : Store) :
  Relay.amount b = Some a →
  (a < 50 →
     Relay.create_payment_intent b
       = Relay.Respond
           (Relay.mkResponse 400
              (Relay.ErrorJson "Amount must be at least $0.50 USD"))
     ∧ (∀ settle, Relay.calls settle (Relay.create_payment_intent b) = [])
     ∧ Relay.serve processor (Relay.create_payment_intent b) s
       = (Relay.mkResponse 400
            (Relay.ErrorJson "Amount must be at least $0.50 USD"), s))
  ∧ (50 ≤ a →
     let c :=
       Relay.PaymentIntentsCreate
         (Relay.mkCreateParams a (default "usd" (Relay.currency b)) true
            (Relay.paymentMethodTypes b)) in
     (∀ settle, Relay.calls settle (Relay.create_payment_intent b) = [c])
     ∧ (∀ pi s', processor c s = (Relay.Fulfilled pi, s') →
          Relay.serve processor (Relay.create_payment_intent b) s
          = (Relay.mkResponse 200
               (Relay.IntentJson (Relay.client_secret pi) (Relay.id pi)), s'))
     ∧ (∀ msg s', processor c s = (Relay.Rejected msg, s') →
          Relay.serve processor (Relay.create_payment_intent b) s
          = (Relay.mkResponse 500
               (Relay.ErrorJson
                  (JS.or_else msg "Failed to create payment intent")), s'))).
Proof.
  intros Ha. split.
  - intros Hlt.
    assert (Hh : Relay.create_payment_intent b
                 = Relay.Respond
                     (Relay.mkResponse 400
                        (Relay.ErrorJson "Amount must be at least $0.50 USD"))).
    { unfold Relay.create_payment_intent.
      rewrite Ha, amount_rejected_lt by exact Hlt. reflexivity. }
    rewrite Hh. repeat split.
  - intros Hge c.
    destruct (create_payment_intent_valid b a Ha Hge) as (k & Hh & Hok & Hfail).
    fold c in Hh. rewrite Hh. split; [|split].
    + intros settle. simpl.
      destruct (settle c) as [pi|msg]; [rewrite Hok | rewrite Hfail]; reflexivity.
    + intros pi s' Hp. simpl. rewrite Hp, Hok. reflexivity.
    + intros msg s' Hp. simpl. rewrite Hp, Hfail. reflexivity.
Qed.

Lemma create_intent_enforces_minimum_witness :
  let low := Relay.mkCreateBody (Some 25) (Some "usd") None in
  let good := Relay.mkCreateBody (Some 9996) (Some "usd") None in
  Relay.serve Relay.sim_processor (Relay.create_payment_intent low) ∅
    = (Relay.mkResponse 400
         (Relay.ErrorJson "Amount must be at least $0.50 USD"), ∅)
  ∧ (Relay.serve Relay.sim_processor (Relay.create_payment_intent good) ∅).1
    = Relay.mkResponse 200 (Relay.IntentJson (Some "pi_0_secret") "pi_0").
Proof.
  intros low good. split.
  - assert (Hlt : 25 < 50) by lia.
    exact (proj2 (proj2 (proj1
             (create_intent_enforces_minimum low 25 _ Relay.sim_processor ∅ eq_refl)
             Hlt))).
  - assert (Hge : 50 ≤ 9996) by lia.
    destruct (proj2
                (create_intent_enforces_minimum good 9996 _ Relay.sim_processor ∅
                   eq_refl) Hge) as (_ & Hok & _).
    rewrite (Hok _ _ eq_refl). reflexivity.
Defined.

(** C8.  Against a processor whose [paymentIntents.retrieve] is a read
    (it leaves the processor's store as it was), the status endpoint is
    a read too: the only processor call it ever makes is a retrieve,
    serving a request leaves the store unchanged, and any number of
    repetitions of the request get the answer of the first, among them
    the same status for an intent the store holds. *)
Theorem confirm_payment_is_idempotent
    (Store : Type) (processor : Relay.Call → Store → Relay.Settled * Store)
    (b : Relay.ConfirmBody) (s : Store) (n : nat) :
  (∀ pid s0, (processor (Relay.PaymentIntentsRetrieve pid) s0).2 = s0) →
  (∀ settle c, c ∈ Relay.calls settle (Relay.confirm_payment b) →
     ∃ pid, c = Relay.PaymentIntentsRetrieve pid)
  ∧ (Relay.serve processor (Relay.confirm_payment b) s).2 = s
  ∧ Relay.serve_n processor n (Relay.confirm_payment b) s
    = (repeat (Relay.serve processor (Relay.confirm_payment b) s).1 n, s)
  ∧ (∀ pid pi, Relay.paymentIntentId b = Some pid → pid ≠ "" →
       (processor (Relay.PaymentIntentsRetrieve pid) s).1 = Relay.Fulfilled pi →
       (Relay.serve processor (Relay.confirm_payment b) s).1
       = Relay.mkResponse 200
           (Relay.StatusJson (Relay.status pi) (Relay.intent_amount pi)
                             (Relay.intent_currency pi))).
Proof.
  intros Hread.
  assert (Hstore : (Relay.serve processor (Relay.confirm_payment b) s).2 = s).
  { unfold Relay.confirm_payment.
    destruct (Relay.paymentIntentId b) as [[|ch pid]|]; simpl; try reflexivity.
    specialize (Hread (String ch pid) s).
    destruct (processor _ s) as [[pi|msg] s']; exact Hread. }
  split; [|split; [exact Hstore | split]].
  - intros settle c. unfold Relay.confirm_payment.
    destruct (Relay.paymentIntentId b) as [[|ch pid]|]; simpl.
    1,3: intros Hc; by apply elem_of_nil in Hc.
    destruct (settle _); simpl; rewrite list_elem_of_singleton;
      intros ->; eexists; reflexivity.
  - apply serve_n_read_only, Hstore.
  - intros pid pi Hb Hne Hp. unfold Relay.confirm_payment. rewrite Hb.
    destruct pid as [|ch pid]; [congruence|]. simpl.
    destruct (processor _ s) as [r s']. simpl in Hp. subst r. reflexivity.
Qed.

Lemma confirm_payment_is_idempotent_witness :
  let paid := Relay.mkPaymentIntent "pi_0" (Some "pi_0_secret") "succeeded" 9996 "usd" in
  let store : gmap string Relay.PaymentIntent := {[ "pi_0" := paid ]} in
  let b := Relay.mkConfirmBody (Some "pi_0") in
  Relay.serve_n Relay.sim_processor 3 (Relay.confirm_payment b) store
  = (repeat (Relay.mkResponse 200 (Relay.StatusJson "succeeded" 9996 "usd")) 3,
     store).
Proof.
  intros paid store b.
  assert (Hread : ∀ pid s0,
            (Relay.sim_processor (Relay.PaymentIntentsRetrieve pid) s0).2 = s0).
  { intros pid s0. simpl. destruct (s0 !! pid); reflexivity. }
  destruct (confirm_payment_is_idempotent _ Relay.sim_processor b store 3 Hread)
    as (_ & _ & Hn & Hstatus).
  rewrite Hn.
  rewrite (Hstatus "pi_0" paid eq_refl); [reflexivity | discriminate | reflexivity].
Defined.

(** C10.  A create-intent request with a valid amount and no [currency]
    field is not turned away: the relay makes its one processor call,
    [paymentIntents.create], with currency "usd", never answers 400, and
    answers 200 with the intent's secret and id when the processor
    accepts. *)
Theorem missing_currency_defaults_to_usd
    (b : Relay.CreateBody) (a : Z)
    (Store : Type) (processor : Relay.Call → Store → Relay.Settled * Store)
    (s : Store) :
  Relay.amount b = Some a →
  50 ≤ a →
  Relay.currency b = None →
  let c :=
    Relay.PaymentIntentsCreate
      (Relay.mkCreateParams a "usd" true (Relay.paymentMethodTypes b)) in
  (∀ settle, Relay.calls settle (Relay.create_payment_intent b) = [c])
  ∧ Relay.http_status
      (Relay.serve processor (Relay.create_payment_intent b) s).1 ≠ 400
  ∧ (∀ pi, (processor c s).1 = Relay.Fulfilled pi →
       (Relay.serve processor (Relay.create_payment_intent b) s).1
       = Relay.mkResponse 200
           (Relay.IntentJson (Relay.client_secret pi) (Relay.id pi))).
Proof.
  intros Ha Hge Hcur c.
  destruct (create_payment_intent_valid b a Ha Hge) as (k & Hh & Hok & Hfail).
  rewrite Hcur in Hh. simpl in Hh. fold c in Hh. rewrite Hh.
  split; [|split].
  - intros settle. simpl.
    destruct (settle c) as [pi|msg]; [rewrite Hok | rewrite Hfail]; reflexivity.
  - simpl. destruct (processor c s) as [[pi|msg] s'];
      [rewrite Hok | rewrite Hfail]; simpl; lia.
  - intros pi Hp. simpl. destruct (processor c s) as [r s'].
    simpl in Hp. subst r. rewrite Hok. reflexivity.
Qed.

Lemma missing_currency_defaults_to_usd_witness :
  let b := Relay.mkCreateBody (Some 9996) None None in
  Relay.serve Relay.sim_processor (Relay.create_payment_intent b) ∅
  = (Relay.mkResponse 200 (Relay.IntentJson (Some "pi_0_secret") "pi_0"),
     {[ "pi_0" := Relay.mkPaymentIntent "pi_0" (Some "pi_0_secret")
                    "requires_payment_method" 9996 "usd" ]}).
Proof.
  intros b.
  assert (Hge : 50 ≤ 9996) by lia.
  destruct (missing_currency_defaults_to_usd b 9996 _ Relay.sim_processor ∅
              eq_refl Hge eq_refl) as (_ & _ & Hok).
  specialize (Hok _ eq_refl).
  destruct (Relay.serve Relay.sim_processor (Relay.create_payment_intent b) ∅)
    as [r s'] eqn:Hserve.
  simpl in Hok. subst r. f_equal.
  vm_compute in Hserve. injection Hserve as <-. vm_compute. reflexivity.
Defined.

(** ** The end-to-end scenarios, run on the model *)

Module Scenarios.

Import Wire.

(** Amount 9996: one request, the relay's secret reaches the form, the
    payment succeeds and the callback runs once. *)
Example scenario_success :
  let st := StripeCheckout.mount None 9996 in
  StripeCheckout.network st = [StripeCheckout.create_request None 9996]
  ∧ StripeCheckout.render
      (StripeCheckout.step None
         (StripeCheckout.FetchSettled 0
            (relay_answer (StripeCheckout.create_request None 9996))) st)
    = StripeCheckout.CheckoutView "pi_0_secret"
  ∧ CheckoutForm.run shop
      [CheckoutForm.ClickPay;
       CheckoutForm.ConfirmSettled
         (JS.Fulfilled (CheckoutForm.mkConfirmResult None
            (Some (CheckoutForm.mkPaymentIntent "succeeded"))))]
      CheckoutForm.initial
    = CheckoutForm.mkState CheckoutForm.succeeded
        "Payment successful! Thank you for your purchase."
        [CheckoutForm.ConfirmPayment "https://shop.example/completion" "if_required";
         CheckoutForm.OnSuccess]
        0.
Proof. vm_compute. repeat split. Qed.

(** Amount 25: the effect stops at its guard and nothing is sent. *)
Example scenario_below_minimum :
  StripeCheckout.mount None 25
  = StripeCheckout.mkState "" "Minimum order amount is $0.50" false 25 [] ∅.
Proof. reflexivity. Qed.

(** Amount 25, then "Try Again": the request goes out, the relay turns
    it down with 400, and the relay's text is what the user sees. *)
Example scenario_below_minimum_retry :
  let st := StripeCheckout.step None StripeCheckout.ClickTryAgain
              (StripeCheckout.mount None 25) in
  StripeCheckout.render
    (StripeCheckout.step None
       (StripeCheckout.FetchSettled 0
          (relay_answer (StripeCheckout.create_request None 25))) st)
  = StripeCheckout.ErrorView "Amount must be at least $0.50 USD".
Proof. vm_compute. reflexivity. Qed.

(** A declined card: the processor's text is shown as it is. *)
Example scenario_declined :
  CheckoutForm.run shop
    [CheckoutForm.ClickPay;
     CheckoutForm.ConfirmSettled
       (JS.Fulfilled (CheckoutForm.mkConfirmResult
          (Some (CheckoutForm.mkStripeError (Some "Your card was declined.")))
          None))]
    CheckoutForm.initial
  = CheckoutForm.mkState CheckoutForm.failed "Your card was declined."
      [CheckoutForm.ConfirmPayment "https://shop.example/completion" "if_required"]
      0.
Proof. reflexivity. Qed.

(** A submit before Stripe Elements is there. *)
Example scenario_not_loaded :
  CheckoutForm.handleSubmit
    (CheckoutForm.mkEnv true false (Some CheckoutForm.CallbackReturns)
      "https://shop.example")
    CheckoutForm.initial
  = CheckoutForm.mkState CheckoutForm.idle
      "Stripe is not loaded. Please refresh the page." [] 0.
Proof. reflexivity. Qed.

End Scenarios.

(** * Further properties *)

(** ** The intent requester, over whole runs *)

Section StripeCheckoutMore.
Import JS StripeCheckout Requests.

Variable api : option string.

Lemma network_effect_below (st : State) :
  totalAmount st < 50 → network (effect api st) = network st.
Proof. intros H. rewrite effect_below_minimum by exact H. reflexivity. Qed.

Lemma network_effect_from (st : State) :
  50 ≤ totalAmount st →
  network (effect api st) = network st ++ [create_request api (totalAmount st)].
Proof.
  intros H. unfold effect.
  destruct (Z.ltb_spec (totalAmount st) 50); [lia | reflexivity].
Qed.

(** What one event adds to the log of requests. *)
Lemma network_step (ev : Event) (st : State) :
  network (step api ev st) = network st
  ∨ (may_send ev = true
     ∧ ∃ a, network (step api ev st) = network st ++ [create_request api a]
            ∧ (is_retry ev = false → 50 ≤ a)).
Proof.
  destruct ev as [a| |i r]; simpl.
  - destruct (a =? totalAmount st); [left; reflexivity|].
    destruct (Z.lt_ge_cases a 50) as [Hlt|Hge].
    + left. rewrite network_effect_below by exact Hlt. reflexivity.
    + right. split; [reflexivity|]. exists a.
      rewrite network_effect_from by exact Hge. split; [reflexivity|]. intros _. exact Hge.
  - destruct (retry_button_shown st); [|left; reflexivity].
    right. split; [reflexivity|]. exists (totalAmount st).
    split; [reflexivity | discriminate].
  - left. destruct (in_flight st !! i); [|reflexivity].
    rewrite network_resume. reflexivity.
Qed.

Lemma network_mount (a : Z) :
  (a < 50 ∧ network (mount api a) = [])
  ∨ (50 ≤ a ∧ network (mount api a) = [create_request api a]).
Proof.
  destruct (Z.lt_ge_cases a 50) as [Hlt|Hge].
  - left. split; [exact Hlt|]. rewrite mount_below_minimum by exact Hlt. reflexivity.
  - right. split; [exact Hge|]. unfold mount.
    rewrite network_effect_from by exact Hge. reflexivity.
Qed.

(** The stored secret stays empty as long as no response brings one. *)
Lemma clientSecret_step_without_secret (ev : Event) (st : State) :
  settles_without_secret ev = true →
  clientSecret st = "" → clientSecret (step api ev st) = "".
Proof.
  intros Hev Hst. destruct ev as [a| |i r]; simpl.
  - destruct (a =? totalAmount st); [exact Hst|].
    unfold effect. simpl. destruct (a <? 50); exact Hst.
  - destruct (retry_button_shown st); exact Hst.
  - destruct (in_flight st !! i); [|exact Hst].
    simpl in Hev. apply negb_true_iff in Hev.
    unfold createPaymentIntent_resume.
    destruct r as [[o [data|err]]|err]; simpl in *; try exact Hst.
    destruct o; simpl in *; [|exact Hst].
    destruct (default "" (body_clientSecret data)); [reflexivity | discriminate].
Qed.

End StripeCheckoutMore.

(** X1.  As long as "Try Again" is never clicked, every request the
    wrapper has sent carries an amount of at least 50: the guard of the
    effect holds on the first render and on every change of the
    total. *)
Theorem no_request_below_minimum_without_retry
    (api : option string) (a : Z) (evs : list StripeCheckout.Event)
    (req : StripeCheckout.Request) :
  Forall (fun ev => Requests.is_retry ev = false) evs →
  req ∈ StripeCheckout.network
          (StripeCheckout.run api evs (StripeCheckout.mount api a)) →
  50 ≤ StripeCheckout.body_amount req.
Proof.
  intros Hevs.
  assert (Hinit : ∀ r, r ∈ StripeCheckout.network (StripeCheckout.mount api a) →
                       50 ≤ StripeCheckout.body_amount r).
  { intros r. destruct (network_mount api a) as [[_ ->]|[Hge ->]].
    - intros Hin. by apply elem_of_nil in Hin.
    - rewrite list_elem_of_singleton. intros ->. exact Hge. }
  revert req. generalize dependent (StripeCheckout.mount api a).
  induction Hevs as [|ev evs Hev _ IH]; intros st Hst; [exact Hst|].
  rewrite run_cons. apply IH. intros r.
  destruct (network_step api ev st) as [-> | (_ & a' & -> & Hge)]; [apply Hst|].
  rewrite elem_of_app, list_elem_of_singleton. intros [Hin | ->].
  - apply Hst, Hin.
  - apply Hge, Hev.
Qed.

Lemma no_request_below_minimum_without_retry_witness :
  let evs := [StripeCheckout.PropChange 25; StripeCheckout.PropChange 700] in
  StripeCheckout.network
    (StripeCheckout.run None evs (StripeCheckout.mount None 100))
  = [StripeCheckout.create_request None 100;
     StripeCheckout.create_request None 700]
  ∧ 50 ≤ StripeCheckout.body_amount (StripeCheckout.create_request None 700).
Proof.
  intros evs. split; [reflexivity|].
  apply (no_request_below_minimum_without_retry None 100 evs).
  - repeat constructor.
  - vm_compute. apply list_elem_of_In. right. left. reflexivity.
Defined.

(** X2.  The wrapper never sends a request on its own: over any run, the
    number of requests sent is at most one (the first render) plus the
    number of prop changes and retry clicks.  A settling response, which
    may be a failure, adds none. *)
Theorem requests_bounded_by_user_events
    (api : option string) (a : Z) (evs : list StripeCheckout.Event) :
  (length (StripeCheckout.network
             (StripeCheckout.run api evs (StripeCheckout.mount api a)))
   ≤ 1 + length (filter (fun ev => Requests.may_send ev = true) evs))%nat.
Proof.
  assert (Hinit : (length (StripeCheckout.network (StripeCheckout.mount api a)) ≤ 1)%nat).
  { destruct (network_mount api a) as [[_ ->]|[_ ->]]; simpl; lia. }
  revert Hinit. generalize (StripeCheckout.mount api a). generalize 1%nat.
  induction evs as [|ev evs IH]; intros n st Hst; [simpl; lia|].
  rewrite run_cons, filter_cons.
  destruct (network_step api ev st) as [Heq | (Hsend & a' & Heq & _)].
  - specialize (IH n (StripeCheckout.step api ev st)).
    rewrite Heq in IH. specialize (IH Hst).
    destruct (decide (Requests.may_send ev = true)); simpl; lia.
  - specialize (IH (S n) (StripeCheckout.step api ev st)).
    rewrite Heq, length_app in IH. simpl in IH.
    rewrite decide_True by exact Hsend. simpl.
    assert (H : (length (StripeCheckout.network st) + 1 ≤ S n)%nat) by lia.
    specialize (IH H). lia.
Qed.

(** X3.  The checkout form is only ever shown after a response that
    brought a client secret: over any run in which no response is a
    successful one with a non-empty [clientSecret], the stored secret
    stays empty and the wrapper never renders the form. *)
Theorem form_needs_successful_response
    (api : option string) (a : Z) (evs : list StripeCheckout.Event) :
  Forall (fun ev => Requests.settles_without_secret ev = true) evs →
  let st := StripeCheckout.run api evs (StripeCheckout.mount api a) in
  StripeCheckout.clientSecret st = ""
  ∧ ∀ secret, StripeCheckout.render st ≠ StripeCheckout.CheckoutView secret.
Proof.
  intros Hevs st.
  assert (Hs : StripeCheckout.clientSecret st = "").
  { subst st.
    assert (Hinit : StripeCheckout.clientSecret (StripeCheckout.mount api a) = "").
    { unfold StripeCheckout.mount, StripeCheckout.effect. simpl.
      destruct (a <? 50); reflexivity. }
    revert Hinit. generalize (StripeCheckout.mount api a).
    induction Hevs as [|ev evs Hev _ IH]; intros st Hst; [exact Hst|].
    rewrite run_cons. apply IH, clientSecret_step_without_secret; assumption. }
  split; [exact Hs|].
  intros secret. unfold StripeCheckout.render. rewrite Hs. simpl.
  destruct (StripeCheckout.loading st); [discriminate|].
  destruct (JS.truthy (StripeCheckout.error st)); discriminate.
Qed.

Lemma form_needs_successful_response_witness :
  let refused :=
    JS.Fulfilled (StripeCheckout.mkHttpResponse false
      (JS.Fulfilled (StripeCheckout.mkResponseBody
                       (Some "Your account cannot make live charges.") None None))) in
  let evs := [StripeCheckout.FetchSettled 0 refused; StripeCheckout.ClickTryAgain] in
  let st := StripeCheckout.run None evs (StripeCheckout.mount None 9996) in
  StripeCheckout.clientSecret st = ""
  ∧ StripeCheckout.render st = StripeCheckout.LoadingView.
Proof.
  intros refused evs st. split; [|reflexivity].
  apply (form_needs_successful_response None 9996 evs).
  repeat constructor.
Defined.

(** [s || fallback] is never empty when the fallback is not. *)
Lemma or_else_nonempty (s : option string) (fallback : string) :
  fallback ≠ "" → JS.or_else s fallback ≠ "".
Proof. intros Hf. destruct s as [[|c m]|]; simpl; congruence. Qed.

Lemma truthy_nonempty (s : string) : s ≠ "" → JS.truthy s = true.
Proof. destruct s; [congruence | reflexivity]. Qed.



(** X5.  A failure whose [Error] has an empty message (the fetch
    rejecting, or the body failing to parse) stores an empty error: the
    error view and its "Try Again" button are not rendered.  With no
    secret stored the wrapper renders nothing at all; with a secret from
    an earlier response it renders the form for that secret. *)
Theorem failure_with_empty_message_shows_no_error
    (api : option string) (st : StripeCheckout.State) (id : nat)
    (req : StripeCheckout.Request)
    (r : JS.Settled StripeCheckout.HttpResponse) :
  StripeCheckout.in_flight st !! id = Some req →
  r = JS.Rejected (JS.ThrownError "")
  ∨ (∃ o, r = JS.Fulfilled
              (StripeCheckout.mkHttpResponse o (JS.Rejected (JS.ThrownError "")))) →
  let st' := StripeCheckout.step api (StripeCheckout.FetchSettled id r) st in
  StripeCheckout.error st' = ""
  ∧ StripeCheckout.retry_button_shown st' = false
  ∧ StripeCheckout.render st'
    = (if JS.truthy (StripeCheckout.clientSecret st)
       then StripeCheckout.CheckoutView (StripeCheckout.clientSecret st)
       else StripeCheckout.NullView).
Proof.
  intros Hin Hr st'.
  assert (Hst' : st' = StripeCheckout.mkState (StripeCheckout.clientSecret st) ""
                  false (StripeCheckout.totalAmount st) (StripeCheckout.network st)
                  (delete id (StripeCheckout.in_flight st))).
  { subst st'. simpl. rewrite Hin.
    destruct Hr as [-> | [o ->]]; reflexivity. }
  rewrite Hst'. unfold StripeCheckout.retry_button_shown, StripeCheckout.render.
  simpl. destruct (JS.truthy (StripeCheckout.clientSecret st)); repeat split.
Qed.

Lemma failure_with_empty_message_shows_no_error_witness :
  let st := StripeCheckout.mount None 9996 in
  let st' := StripeCheckout.step None
               (StripeCheckout.FetchSettled 0 (JS.Rejected (JS.ThrownError ""))) st in
  StripeCheckout.render st' = StripeCheckout.NullView
  ∧ StripeCheckout.retry_button_shown st' = false.
Proof.
  intros st st'.
  assert (Hin : StripeCheckout.in_flight st !! 0%nat
                = Some (StripeCheckout.create_request None 9996))
    by (vm_compute; reflexivity).
  destruct (failure_with_empty_message_shows_no_error None st 0 _
              (JS.Rejected (JS.ThrownError "")) Hin (or_introl eq_refl))
    as (_ & Hb & Hr).
  split; [exact Hr | exact Hb].
Defined.

(** X6.  A click on "Try Again", when the button is shown, clears the
    error, shows the loading view and sends exactly one new request,
    for the total of the current render and currency "usd"; the new
    request is in flight under the next free number, and the secret of
    an earlier response stays stored. *)
Theorem retry_sends_one_request_for_current_total
    (api : option string) (st : StripeCheckout.State) :
  StripeCheckout.retry_button_shown st = true →
  let st' := StripeCheckout.step api StripeCheckout.ClickTryAgain st in
  StripeCheckout.render st' = StripeCheckout.LoadingView
  ∧ StripeCheckout.error st' = ""
  ∧ StripeCheckout.network st'
    = StripeCheckout.network st
      ++ [StripeCheckout.mkRequest
            (StripeCheckout.apiUrl api +:+ "/create-payment-intent")
            "POST" "application/json" (StripeCheckout.totalAmount st) "usd"]
  ∧ StripeCheckout.in_flight st' !! length (StripeCheckout.network st)
    = Some (StripeCheckout.create_request api (StripeCheckout.totalAmount st))
  ∧ StripeCheckout.clientSecret st' = StripeCheckout.clientSecret st.
Proof.
  intros Hshown st'. subst st'. simpl. rewrite Hshown.
  repeat split. simpl. apply lookup_insert_eq.
Qed.

Lemma retry_sends_one_request_for_current_total_witness :
  let refused :=
    JS.Fulfilled (StripeCheckout.mkHttpResponse false
      (JS.Fulfilled (StripeCheckout.mkResponseBody None None None))) in
  let st := StripeCheckout.run None
              [StripeCheckout.FetchSettled 0 refused] (StripeCheckout.mount None 9996) in
  StripeCheckout.network (StripeCheckout.step None StripeCheckout.ClickTryAgain st)
  = [StripeCheckout.create_request None 9996; StripeCheckout.create_request None 9996].
Proof.
  intros refused st.
  destruct (retry_sends_one_request_for_current_total None st eq_refl)
    as (_ & _ & Hn & _).
  rewrite Hn. reflexivity.
Defined.

(** ** The cart total *)

Section CartFacts.
Import App.

(** The [reduce] with any starting sum. *)
Lemma reduce_from (cart : list CartItem) (sum : Z) :
  foldl (fun sum item => sum + price item * quantity item) sum cart
  = sum + totalAmount cart.
Proof.
  unfold totalAmount. revert sum.
  induction cart as [|item cart IH]; intros sum; simpl; [lia|].
  rewrite IH, (IH (0 + _)). lia.
Qed.

Lemma totalAmount_cons (item : CartItem) (cart : list CartItem) :
  totalAmount (item :: cart) = line_amount item + totalAmount cart.
Proof.
  unfold totalAmount at 1. simpl. rewrite reduce_from. reflexivity.
Qed.

Lemma totalAmount_app (c1 c2 : list CartItem) :
  totalAmount (c1 ++ c2) = totalAmount c1 + totalAmount c2.
Proof.
  induction c1 as [|item c1 IH]; [reflexivity|].
  simpl app. rewrite !totalAmount_cons, IH. lia.
Qed.

Lemma totalAmount_nonneg (cart : list CartItem) :
  (∀ item, item ∈ cart → 0 ≤ line_amount item) → 0 ≤ totalAmount cart.
Proof.
  induction cart as [|item cart IH]; intros H; [reflexivity|].
  rewrite totalAmount_cons.
  assert (0 ≤ line_amount item) by (apply H; left).
  assert (0 ≤ totalAmount cart) by (apply IH; intros i Hi; apply H; by right).
  lia.
Qed.

End CartFacts.

Lemma safe_cart_lines (cart : list App.CartItem) :
  Forall (fun item => 0 ≤ App.price item ≤ App.MAX_SAFE_INTEGER
                      ∧ 0 ≤ App.quantity item ≤ App.MAX_SAFE_INTEGER) cart →
  ∀ item, item ∈ cart → 0 ≤ App.line_amount item.
Proof.
  intros H item Hin. rewrite Forall_forall in H.
  destruct (H item Hin) as [[Hp _] [Hq _]].
  unfold App.line_amount. apply Z.mul_nonneg_nonneg; assumption.
Qed.

(** X7.  On a cart where the code's arithmetic is exact (prices and
    quantities that are not negative, total within
    [Number.MAX_SAFE_INTEGER]), the total of two carts put together is
    the sum of their totals; each part is such a cart again, and no
    line amount of the order summary exceeds the total. *)
Theorem total_is_additive_within_safe_range (cart more : list App.CartItem) :
  App.safe_cart (cart ++ more) →
  App.totalAmount (cart ++ more) = App.totalAmount cart + App.totalAmount more
  ∧ App.safe_cart cart
  ∧ App.safe_cart more
  ∧ (∀ item, item ∈ cart ++ more →
       0 ≤ App.line_amount item ≤ App.totalAmount (cart ++ more)).
Proof.
  intros [Hall Hmax].
  apply Forall_app in Hall as Hparts. destruct Hparts as [Hc Hm].
  pose proof (totalAmount_nonneg cart (safe_cart_lines cart Hc)) as Hc0.
  pose proof (totalAmount_nonneg more (safe_cart_lines more Hm)) as Hm0.
  pose proof (totalAmount_app cart more) as Happ.
  split; [exact Happ|]. split; [|split].
  - split; [exact Hc | lia].
  - split; [exact Hm | lia].
  - intros item Hin.
    pose proof (safe_cart_lines _ Hall item Hin) as Hitem.
    split; [exact Hitem|].
    apply list_elem_of_split in Hin as (c1 & c2 & Heq).
    rewrite Heq in Hall |- *.
    apply Forall_app in Hall as [H1 H2].
    apply Forall_cons in H2 as [_ H2].
    pose proof (totalAmount_nonneg c1 (safe_cart_lines c1 H1)).
    pose proof (totalAmount_nonneg c2 (safe_cart_lines c2 H2)).
    rewrite totalAmount_app, totalAmount_cons. lia.
Qed.

Lemma total_is_additive_within_safe_range_witness :
  App.totalAmount App.sampleCart
  = App.totalAmount (take 1 App.sampleCart) + App.totalAmount (drop 1 App.sampleCart).
Proof.
  apply (total_is_additive_within_safe_range
           (take 1 App.sampleCart) (drop 1 App.sampleCart)).
  split.
  - repeat constructor; vm_compute; discriminate.
  - vm_compute. discriminate.
Defined.



(** ** The confirmation orchestrator, over whole runs *)

Section CheckoutFormMore.
Import JS CheckoutForm CheckoutFormView.

Variable env : Env.

(** With nothing outstanding and the status [processing], no event
    changes the state. *)
Lemma processing_without_call_is_final (st : State) (evs : list Event) :
  paymentStatus st = processing → awaiting st = O → run env evs st = st.
Proof.
  intros Hp Ha. induction evs as [|ev evs IH]; [reflexivity|].
  rewrite form_run_cons.
  replace (step env ev st) with st; [exact IH|].
  destruct ev as [|r]; simpl.
  - rewrite disabled_processing by exact Hp. reflexivity.
  - rewrite Ha. reflexivity.
Qed.

Lemma confirm_args_fixed_emit (e : Effect) (st : State) :
  (is_confirm e = true →
     e = ConfirmPayment (origin env +:+ "/completion") "if_required") →
  confirm_args_fixed env st → confirm_args_fixed env (emit e st).
Proof.
  intros He H e'. unfold emit. simpl.
  rewrite elem_of_app, list_elem_of_singleton.
  intros [Hin | ->]; [apply H, Hin | exact He].
Qed.

Lemma confirm_args_fixed_step (ev : Event) (st : State) :
  confirm_args_fixed env st → confirm_args_fixed env (step env ev st).
Proof.
  intros H. destruct ev as [|r]; simpl.
  - destruct (pay_button_disabled env st); [exact H|].
    unfold handleSubmit.
    destruct (negb (stripe env) || negb (elements env)); [exact H|].
    apply (confirm_args_fixed_emit _
             (setMessage "" (setPaymentStatus processing st)));
      [intros _; reflexivity | exact H].
  - destruct (awaiting st); [exact H|].
    unfold handleSubmit_resume.
    destruct r as [[[err|] [pi|]]|err]; simpl; try exact H.
    destruct (String.eqb (pi_status pi) "succeeded"); [|exact H].
    assert (He : confirm_args_fixed env
                   (emit OnSuccess
                      (setMessage "Payment successful! Thank you for your purchase."
                         (setPaymentStatus succeeded (wake st)))))
      by (apply confirm_args_fixed_emit; [discriminate | exact H]).
    destruct (call_onSuccess_cases env
                (setMessage "Payment successful! Thank you for your purchase."
                   (setPaymentStatus succeeded (wake st))))
      as [[_ ->] | [[_ ->] | (err & _ & ->)]]; [exact H | exact He | exact He].
Qed.

Lemma success_inv_step (ev : Event) (st : State) :
  success_inv env st → success_inv env (step env ev st).
Proof.
  intros [Hinv Hs]. split; [apply reachable_inv_step, Hinv|].
  destruct Hinv as (Hle & Hproc & _).
  destruct ev as [|r]; simpl.
  - destruct (pay_button_disabled env st) eqn:Hdis; [exact Hs|].
    unfold handleSubmit.
    destruct (negb (stripe env) || negb (elements env)); simpl.
    + intros Hsucc. rewrite disabled_succeeded in Hdis by exact Hsucc.
      discriminate.
    + discriminate.
  - destruct (awaiting st) as [|n] eqn:Ha; [rewrite Ha; exact Hs|].
    assert (n = O) by lia. subst n.
    destruct (Hproc eq_refl) as [Hp _].
    unfold handleSubmit_resume.
    destruct r as [[[err|] [pi|]]|err]; simpl; try discriminate.
    + destruct (String.eqb (pi_status pi) "succeeded").
      * destruct (call_onSuccess_cases env
                    (setMessage "Payment successful! Thank you for your purchase."
                       (setPaymentStatus succeeded (wake st))))
          as [[_ ->] | [[_ ->] | (err & _ & ->)]]; simpl;
          [intros _; rewrite Ha; split; reflexivity
          |intros _; rewrite Ha; split; reflexivity
          |discriminate].
      * simpl. rewrite Hp. discriminate.
    + rewrite Hp. discriminate.
Qed.

Lemma success_inv_run (evs : list Event) :
  success_inv env (run env evs initial).
Proof.
  apply form_run_invariant; [apply success_inv_step|].
  split; [apply reachable_inv_initial | discriminate].
Qed.

End CheckoutFormMore.

(** X9.  In every state the form can reach, at most one
    [confirmPayment] call is outstanding; while one is, the status is
    [processing], the message is empty and the pay button is
    disabled. *)
Theorem at_most_one_confirmation_outstanding
    (env : CheckoutForm.Env) (evs : list CheckoutForm.Event) :
  let st := CheckoutForm.run env evs CheckoutForm.initial in
  (CheckoutForm.awaiting st ≤ 1)%nat
  ∧ (CheckoutForm.awaiting st ≠ O →
       CheckoutForm.paymentStatus st = CheckoutForm.processing
       ∧ CheckoutForm.message st = ""
       ∧ CheckoutForm.pay_button_disabled env st = true).
Proof.
  intros st. destruct (reachable_inv_run env evs) as (Hle & Hproc & _).
  fold st in Hle, Hproc. split; [exact Hle|].
  intros Ha. assert (Ha1 : CheckoutForm.awaiting st = 1%nat) by lia.
  destruct (Hproc Ha1) as [Hp Hm].
  repeat split; try assumption. apply disabled_processing, Hp.
Qed.

Lemma at_most_one_confirmation_outstanding_witness :
  let st := CheckoutForm.run Wire.shop
              [CheckoutForm.ClickPay; CheckoutForm.ClickPay] CheckoutForm.initial in
  CheckoutForm.awaiting st ≠ O
  ∧ CheckoutForm.pay_button_disabled Wire.shop st = true.
Proof.
  intros st.
  assert (Ha : CheckoutForm.awaiting st ≠ O) by discriminate.
  split; [exact Ha|].
  exact (proj2 (proj2 (proj2 (at_most_one_confirmation_outstanding Wire.shop
           [CheckoutForm.ClickPay; CheckoutForm.ClickPay]) Ha))).
Defined.

(** X10.  A form whose status is [processing] with no call outstanding
    never leaves that state: every click is swallowed by the disabled
    button and there is no call left to settle.  This is where a
    confirmation that resolves without error and without a succeeded
    intent leaves the form. *)
Theorem processing_without_outstanding_call_is_stuck
    (env : CheckoutForm.Env) (st : CheckoutForm.State)
    (evs : list CheckoutForm.Event) (total : Z) :
  CheckoutForm.paymentStatus st = CheckoutForm.processing →
  CheckoutForm.awaiting st = O →
  CheckoutForm.run env evs st = st
  ∧ CheckoutFormView.button_label total (CheckoutForm.run env evs st)
    = CheckoutFormView.LabelProcessing.
Proof.
  intros Hp Ha. rewrite processing_without_call_is_final by assumption.
  split; [reflexivity|].
  unfold CheckoutFormView.button_label, CheckoutFormView.isProcessing.
  rewrite Hp. reflexivity.
Qed.

Lemma processing_without_outstanding_call_is_stuck_witness :
  let pending :=
    CheckoutForm.ConfirmSettled
      (JS.Fulfilled (CheckoutForm.mkConfirmResult None
         (Some (CheckoutForm.mkPaymentIntent "requires_action")))) in
  let st := CheckoutForm.run Wire.shop [CheckoutForm.ClickPay; pending]
              CheckoutForm.initial in
  CheckoutForm.run Wire.shop
    [CheckoutForm.ClickPay; pending; CheckoutForm.ClickPay] st = st.
Proof.
  intros pending st.
  exact (proj1 (processing_without_outstanding_call_is_stuck Wire.shop st
                  [CheckoutForm.ClickPay; pending; CheckoutForm.ClickPay] 9996
                  eq_refl eq_refl)).
Defined.

(** X11.  After a failed confirmation (and before the first one) the
    form takes a new submit: with Stripe and Elements loaded, a click in
    status [failed] or [idle] clears the message, sets [processing] and
    makes one more [confirmPayment] call with the same arguments as
    every other. *)
Theorem submit_accepted_when_idle_or_failed
    (env : CheckoutForm.Env) (st : CheckoutForm.State) :
  CheckoutForm.stripe env = true →
  CheckoutForm.elements env = true →
  CheckoutForm.paymentStatus st = CheckoutForm.failed
  ∨ CheckoutForm.paymentStatus st = CheckoutForm.idle →
  CheckoutForm.step env CheckoutForm.ClickPay st
  = CheckoutForm.mkState CheckoutForm.processing ""
      (CheckoutForm.effects st
       ++ [CheckoutForm.ConfirmPayment
             (CheckoutForm.origin env +:+ "/completion") "if_required"])
      (S (CheckoutForm.awaiting st)).
Proof.
  intros Hs He Hst. simpl.
  assert (Hdis : CheckoutForm.pay_button_disabled env st = false).
  { unfold CheckoutForm.pay_button_disabled. rewrite Hs.
    destruct Hst as [-> | ->]; reflexivity. }
  rewrite Hdis. apply handleSubmit_ready; assumption.
Qed.

Lemma submit_accepted_when_idle_or_failed_witness :
  let declined :=
    CheckoutForm.ConfirmSettled
      (JS.Fulfilled (CheckoutForm.mkConfirmResult
         (Some (CheckoutForm.mkStripeError (Some "Your card was declined.")))
         None)) in
  let st := CheckoutForm.run Wire.shop [CheckoutForm.ClickPay; declined]
              CheckoutForm.initial in
  CheckoutForm.confirm_calls (CheckoutForm.step Wire.shop CheckoutForm.ClickPay st)
  = 2%nat.
Proof.
  intros declined st.
  rewrite (submit_accepted_when_idle_or_failed Wire.shop st eq_refl eq_refl
             (or_introl eq_refl)).
  reflexivity.
Defined.

(** X12.  When [confirmPayment] throws instead of resolving, the status
    becomes [failed], nothing is called, and the pay button is enabled
    again if Stripe is loaded.  The message is the thrown [Error]'s own
    message, or "An unexpected error occurred" for a thrown value that
    is no [Error]; an [Error] with an empty message leaves the form
    failed with no message box. *)
Theorem thrown_confirmation_sets_failed
    (env : CheckoutForm.Env) (st : CheckoutForm.State) (err : JS.Thrown) :
  CheckoutForm.awaiting st ≠ O →
  let st' := CheckoutForm.step env
               (CheckoutForm.ConfirmSettled (JS.Rejected err)) st in
  CheckoutForm.paymentStatus st' = CheckoutForm.failed
  ∧ CheckoutForm.message st' = JS.message_or err "An unexpected error occurred"
  ∧ CheckoutForm.effects st' = CheckoutForm.effects st
  ∧ CheckoutForm.pay_button_disabled env st' = negb (CheckoutForm.stripe env)
  ∧ (err = JS.ThrownError "" → CheckoutFormView.message_box st' = None)
  ∧ (∀ m, err = JS.ThrownError m → m ≠ "" →
       CheckoutFormView.message_box st' = Some ("message error", m)).
Proof.
  intros Ha st'. subst st'. simpl.
  destruct (CheckoutForm.awaiting st) as [|n]; [congruence|]. simpl.
  split; [reflexivity|]. split; [reflexivity|]. split; [reflexivity|].
  split; [|split].
  - unfold CheckoutForm.pay_button_disabled. simpl.
    destruct (CheckoutForm.stripe env); reflexivity.
  - intros ->. reflexivity.
  - intros m -> Hm. unfold CheckoutFormView.message_box. simpl.
    rewrite truthy_nonempty by exact Hm. reflexivity.
Qed.

Lemma thrown_confirmation_sets_failed_witness :
  let st := CheckoutForm.step Wire.shop CheckoutForm.ClickPay CheckoutForm.initial in
  let st' := CheckoutForm.step Wire.shop
               (CheckoutForm.ConfirmSettled
                  (JS.Rejected (JS.ThrownError "Failed to fetch"))) st in
  CheckoutForm.paymentStatus st' = CheckoutForm.failed
  ∧ CheckoutFormView.message_box st' = Some ("message error", "Failed to fetch").
Proof.
  intros st st'.
  assert (Ha : CheckoutForm.awaiting st ≠ O) by discriminate.
  destruct (thrown_confirmation_sets_failed Wire.shop st
              (JS.ThrownError "Failed to fetch") Ha)
    as (Hf & _ & _ & _ & _ & Hbox).
  split; [exact Hf|]. apply (Hbox _ eq_refl). discriminate.
Defined.

(** X13.  After an error the processor reported, the form always has
    something to show: the message is never empty and is rendered in a
    box of class "message error". *)
Theorem processor_error_is_always_shown
    (env : CheckoutForm.Env) (st : CheckoutForm.State)
    (err : CheckoutForm.StripeError) (pi : option CheckoutForm.PaymentIntent) :
  CheckoutForm.awaiting st ≠ O →
  let st' :=
    CheckoutForm.step env
      (CheckoutForm.ConfirmSettled
         (JS.Fulfilled (CheckoutForm.mkConfirmResult (Some err) pi))) st in
  CheckoutForm.message st' ≠ ""
  ∧ CheckoutFormView.message_box st'
    = Some ("message error", CheckoutForm.message st').
Proof.
  intros Ha st'. subst st'. simpl.
  destruct (CheckoutForm.awaiting st) as [|n]; [congruence|]. simpl.
  assert (Hne : JS.or_else (CheckoutForm.error_message err)
                           "An error occurred during payment" ≠ "")
    by (apply or_else_nonempty; discriminate).
  split; [exact Hne|].
  unfold CheckoutFormView.message_box. simpl.
  rewrite truthy_nonempty by exact Hne. reflexivity.
Qed.

Lemma processor_error_is_always_shown_witness :
  let st := CheckoutForm.step Wire.shop CheckoutForm.ClickPay CheckoutForm.initial in
  let st' :=
    CheckoutForm.step Wire.shop
      (CheckoutForm.ConfirmSettled
         (JS.Fulfilled (CheckoutForm.mkConfirmResult
            (Some (CheckoutForm.mkStripeError None)) None))) st in
  CheckoutFormView.message_box st'
  = Some ("message error", "An error occurred during payment").
Proof.
  intros st st'.
  assert (Ha : CheckoutForm.awaiting st ≠ O) by discriminate.
  destruct (processor_error_is_always_shown Wire.shop st
              (CheckoutForm.mkStripeError None) None Ha) as (_ & Hbox).
  exact Hbox.
Defined.

(** X14.  Every [confirmPayment] call the form ever makes has the same
    arguments: the return URL is the page's origin followed by
    "/completion", and [redirect] is "if_required". *)
Theorem confirm_arguments_never_vary
    (env : CheckoutForm.Env) (evs : list CheckoutForm.Event)
    (return_url redirect : string) :
  CheckoutForm.ConfirmPayment return_url redirect
    ∈ CheckoutForm.effects (CheckoutForm.run env evs CheckoutForm.initial) →
  return_url = CheckoutForm.origin env +:+ "/completion"
  ∧ redirect = "if_required".
Proof.
  intros Hin.
  assert (H : CheckoutFormView.confirm_args_fixed env
                (CheckoutForm.run env evs CheckoutForm.initial)).
  { apply form_run_invariant; [apply confirm_args_fixed_step|].
    intros e He. by apply elem_of_nil in He. }
  specialize (H _ Hin eq_refl). injection H as -> ->. split; reflexivity.
Qed.

Lemma confirm_arguments_never_vary_witness :
  "https://shop.example/completion" = CheckoutForm.origin Wire.shop +:+ "/completion"
  ∧ "if_required" = "if_required".
Proof.
  apply (confirm_arguments_never_vary Wire.shop [CheckoutForm.ClickPay]).
  vm_compute. apply list_elem_of_In. left. reflexivity.
Defined.

(** X15.  Whenever the form's status is [succeeded], in any state it can
    reach, it shows the text "Payment successful! Thank you for your
    purchase." in a box of class "message success", the button reads
    "Payment Complete" and is disabled, and no call is outstanding. *)
Theorem succeeded_form_shows_success
    (env : CheckoutForm.Env) (evs : list CheckoutForm.Event) (total : Z) :
  let st := CheckoutForm.run env evs CheckoutForm.initial in
  CheckoutForm.paymentStatus st = CheckoutForm.succeeded →
  CheckoutFormView.message_box st
    = Some ("message success",
            "Payment successful! Thank you for your purchase.")
  ∧ CheckoutFormView.button_label total st = CheckoutFormView.LabelComplete
  ∧ CheckoutForm.pay_button_disabled env st = true
  ∧ CheckoutForm.awaiting st = O.
Proof.
  intros st Hs. destruct (success_inv_run env evs) as [_ Hinv].
  fold st in Hinv. destruct (Hinv Hs) as [Hm Ha].
  split; [|split; [|split]].
  - unfold CheckoutFormView.message_box. rewrite Hm, Hs. reflexivity.
  - unfold CheckoutFormView.button_label, CheckoutFormView.isProcessing,
      CheckoutFormView.isSucceeded. rewrite Hs. reflexivity.
  - apply disabled_succeeded, Hs.
  - exact Ha.
Qed.

Lemma succeeded_form_shows_success_witness :
  let paid :=
    CheckoutForm.ConfirmSettled
      (JS.Fulfilled (CheckoutForm.mkConfirmResult None
         (Some (CheckoutForm.mkPaymentIntent "succeeded")))) in
  let st := CheckoutForm.run Wire.shop [CheckoutForm.ClickPay; paid]
              CheckoutForm.initial in
  CheckoutFormView.button_label 9996 st = CheckoutFormView.LabelComplete
  ∧ CheckoutForm.awaiting st = O.
Proof.
  intros paid st.
  destruct (succeeded_form_shows_success Wire.shop [CheckoutForm.ClickPay; paid]
              9996 eq_refl) as (_ & Hl & _ & Ha).
  split; [exact Hl | exact Ha].
Defined.

(** X16.  With no [onSuccess] prop, or with one that returns, the
    completion callback is invoked at most once over any run of the
    form, and it has been invoked exactly when the status is
    [succeeded] and the prop was given. *)
Theorem onSuccess_at_most_once_overall
    (env : CheckoutForm.Env) (evs : list CheckoutForm.Event) :
  CheckoutForm.callback_returns env →
  let st := CheckoutForm.run env evs CheckoutForm.initial in
  (CheckoutForm.count CheckoutForm.OnSuccess st ≤ 1)%nat
  ∧ (CheckoutForm.count CheckoutForm.OnSuccess st = 1%nat ↔
       CheckoutForm.paymentStatus st = CheckoutForm.succeeded
       ∧ CheckoutForm.onSuccess env = Some CheckoutForm.CallbackReturns).
Proof.
  intros Hret st. destruct (reachable_inv_run env evs) as (_ & _ & Hc).
  fold st in Hc. rewrite (Hc Hret). unfold CheckoutForm.has_callback.
  unfold CheckoutForm.callback_returns in Hret.
  destruct (decide (CheckoutForm.paymentStatus st = CheckoutForm.succeeded))
    as [Hs|Hs];
    [rewrite bool_decide_eq_true_2 by exact Hs
    |rewrite bool_decide_eq_false_2 by exact Hs];
    destruct (CheckoutForm.onSuccess env) as [[|err]|]; simpl;
    (split; [lia|]); try (exfalso; exact (Hret err eq_refl));
    intuition congruence.
Qed.

Lemma onSuccess_at_most_once_overall_witness :
  let paid :=
    CheckoutForm.ConfirmSettled
      (JS.Fulfilled (CheckoutForm.mkConfirmResult None
         (Some (CheckoutForm.mkPaymentIntent "succeeded")))) in
  CheckoutForm.count CheckoutForm.OnSuccess
    (CheckoutForm.run Wire.shop
       [CheckoutForm.ClickPay; paid; CheckoutForm.ClickPay; paid]
       CheckoutForm.initial)
  = 1%nat.
Proof.
  intros paid.
  assert (Hret : CheckoutForm.callback_returns Wire.shop)
    by (intros err; discriminate).
  apply (proj2 (onSuccess_at_most_once_overall Wire.shop
                  [CheckoutForm.ClickPay; paid; CheckoutForm.ClickPay; paid] Hret)).
  split; reflexivity.
Defined.

(** X27.  An [onSuccess] prop that throws is caught by the [catch] of
    [handleSubmit]: when the confirmation resolves with status
    "succeeded", the callback is invoked once, and the form ends in
    status [failed] with the thrown error's message (or "An unexpected
    error occurred" for a thrown value that is no [Error]); the pay
    button is enabled again if Stripe is loaded. *)
Theorem throwing_callback_ends_failed
    (env : CheckoutForm.Env) (st : CheckoutForm.State)
    (pi : CheckoutForm.PaymentIntent) (err : JS.Thrown) :
  CheckoutForm.onSuccess env = Some (CheckoutForm.CallbackThrows err) →
  CheckoutForm.pi_status pi = "succeeded" →
  CheckoutForm.awaiting st ≠ O →
  let st' :=
    CheckoutForm.step env
      (CheckoutForm.ConfirmSettled
         (JS.Fulfilled (CheckoutForm.mkConfirmResult None (Some pi)))) st in
  CheckoutForm.paymentStatus st' = CheckoutForm.failed
  ∧ CheckoutForm.message st' = JS.message_or err "An unexpected error occurred"
  ∧ CheckoutForm.effects st' = CheckoutForm.effects st ++ [CheckoutForm.OnSuccess]
  ∧ CheckoutForm.count CheckoutForm.OnSuccess st'
    = S (CheckoutForm.count CheckoutForm.OnSuccess st)
  ∧ CheckoutForm.pay_button_disabled env st' = negb (CheckoutForm.stripe env).
Proof.
  intros Hcb Hpi Ha st'.
  assert (Hst' : st' = CheckoutForm.handleSubmit_catch err
            (CheckoutForm.emit CheckoutForm.OnSuccess
               (CheckoutForm.setMessage
                  "Payment successful! Thank you for your purchase."
                  (CheckoutForm.setPaymentStatus CheckoutForm.succeeded
                     (CheckoutForm.wake st))))).
  { subst st'. simpl. destruct (CheckoutForm.awaiting st) as [|n]; [congruence|].
    simpl. rewrite Hpi. simpl. unfold CheckoutForm.call_onSuccess.
    rewrite Hcb. reflexivity. }
  rewrite Hst'. split; [reflexivity|]. split; [reflexivity|].
  split; [reflexivity|]. split.
  - unfold CheckoutForm.count. simpl. rewrite filter_app, length_app. simpl. lia.
  - unfold CheckoutForm.pay_button_disabled. simpl.
    destruct (CheckoutForm.stripe env); reflexivity.
Qed.

Lemma throwing_callback_ends_failed_witness :
  let env := CheckoutForm.mkEnv true true
               (Some (CheckoutForm.CallbackThrows (JS.ThrownError "navigate failed")))
               "https://shop.example" in
  let paid :=
    CheckoutForm.ConfirmSettled
      (JS.Fulfilled (CheckoutForm.mkConfirmResult None
         (Some (CheckoutForm.mkPaymentIntent "succeeded")))) in
  let st := CheckoutForm.run env [CheckoutForm.ClickPay; paid; CheckoutForm.ClickPay]
              CheckoutForm.initial in
  CheckoutForm.count CheckoutForm.OnSuccess st = 1%nat
  ∧ CheckoutForm.paymentStatus (CheckoutForm.step env paid st) = CheckoutForm.failed
  ∧ CheckoutForm.message (CheckoutForm.step env paid st) = "navigate failed"
  ∧ CheckoutForm.count CheckoutForm.OnSuccess (CheckoutForm.step env paid st) = 2%nat.
Proof.
  intros env paid st.
  assert (Ha : CheckoutForm.awaiting st ≠ O) by discriminate.
  destruct (throwing_callback_ends_failed env st
              (CheckoutForm.mkPaymentIntent "succeeded")
              (JS.ThrownError "navigate failed") eq_refl eq_refl Ha)
    as (Hf & Hm & _ & Hc & _).
  split; [reflexivity|]. split; [exact Hf|]. split; [exact Hm | exact Hc].
Defined.

(** ** The relay, on every input *)

Section RelayMore.
Import Relay.

Lemma amount_rejected_spec (a : Z) : amount_rejected (Some a) = (a <? 50).
Proof.
  unfold amount_rejected.
  destruct (Z.eqb_spec a 0) as [->|_]; reflexivity.
Qed.

Context {Store : Type}.
Variable processor : Call → Store → Settled * Store.

Lemma create_payment_intent_well_formed (b : CreateBody) (s : Store) :
  Responses.well_formed (serve processor (create_payment_intent b) s).1.
Proof.
  unfold create_payment_intent.
  destruct (amount b) as [a|]; [|simpl; split; [by left | discriminate]].
  destruct (amount_rejected (Some a)); [simpl; split; [by left | discriminate]|].
  simpl. destruct (processor _ s) as [[pi|msg] s']; simpl; [reflexivity|].
  split; [by right | apply or_else_nonempty; discriminate].
Qed.

Lemma confirm_payment_well_formed (b : ConfirmBody) (s : Store) :
  Responses.well_formed (serve processor (confirm_payment b) s).1.
Proof.
  unfold confirm_payment.
  destruct (paymentIntentId b) as [[|c pid]|]; simpl;
    try (split; [by left | discriminate]).
  destruct (processor _ s) as [[pi|msg] s']; simpl; [reflexivity|].
  split; [by right | apply or_else_nonempty; discriminate].
Qed.

End RelayMore.

(** X17.  The wrapper's effect and the relay draw the line at the same
    amount: on its first render the wrapper sends a request exactly for
    the totals the relay does not turn away with 400.  The relay's
    check is [a < 50] on every integer (zero, which is falsy, included),
    and a request without an amount is turned away too. *)
Theorem client_and_relay_agree_on_minimum
    (api : option string) (a : Z) (cur : option string)
    (pmt : option (list string)) :
  Relay.amount_rejected (Some a) = (a <? 50)
  ∧ Relay.amount_rejected None = true
  ∧ (StripeCheckout.network (StripeCheckout.mount api a) = [] ↔
       Relay.create_payment_intent (Relay.mkCreateBody (Some a) cur pmt)
       = Relay.Respond
           (Relay.mkResponse 400
              (Relay.ErrorJson "Amount must be at least $0.50 USD"))).
Proof.
  split; [apply amount_rejected_spec|]. split; [reflexivity|].
  unfold Relay.create_payment_intent. simpl Relay.amount. cbv iota.
  rewrite amount_rejected_spec.
  destruct (network_mount api a) as [[Hlt ->]|[Hge ->]].
  - destruct (Z.ltb_spec a 50); [split; reflexivity | lia].
  - destruct (Z.ltb_spec a 50); [lia|]. split; discriminate.
Qed.

Lemma client_and_relay_agree_on_minimum_witness :
  Relay.create_payment_intent (Relay.mkCreateBody (Some 49) (Some "usd") None)
  = Relay.Respond
      (Relay.mkResponse 400 (Relay.ErrorJson "Amount must be at least $0.50 USD")).
Proof.
  apply (proj2 (proj2 (client_and_relay_agree_on_minimum None 49 (Some "usd") None))).
  reflexivity.
Defined.

(** X18.  A request that lacks its required field never reaches the
    processor: without [amount] the create endpoint, and without
    [paymentIntentId] (or with an empty one) the status endpoint,
    answers 400 with its fixed text, makes no processor call and leaves
    the processor's store as it was, whatever the processor is. *)
Theorem missing_field_is_rejected_locally
    (Store : Type) (processor : Relay.Call → Store → Relay.Settled * Store)
    (s : Store) (settle : Relay.Call → Relay.Settled) :
  (∀ b, Relay.amount b = None →
     Relay.serve processor (Relay.create_payment_intent b) s
       = (Relay.mkResponse 400
            (Relay.ErrorJson "Amount must be at least $0.50 USD"), s)
     ∧ Relay.calls settle (Relay.create_payment_intent b) = [])
  ∧ (∀ b, Relay.paymentIntentId b = None ∨ Relay.paymentIntentId b = Some "" →
       Relay.serve processor (Relay.confirm_payment b) s
         = (Relay.mkResponse 400 (Relay.ErrorJson "paymentIntentId is required"), s)
       ∧ Relay.calls settle (Relay.confirm_payment b) = []).
Proof.
  split.
  - intros b Hb. unfold Relay.create_payment_intent. rewrite Hb.
    split; reflexivity.
  - intros b Hb. unfold Relay.confirm_payment.
    destruct Hb as [-> | ->]; split; reflexivity.
Qed.

Lemma missing_field_is_rejected_locally_witness :
  Relay.serve Relay.sim_processor
    (Relay.confirm_payment (Relay.mkConfirmBody (Some ""))) ∅
  = (Relay.mkResponse 400 (Relay.ErrorJson "paymentIntentId is required"), ∅).
Proof.
  exact (proj1 (proj2 (missing_field_is_rejected_locally _ Relay.sim_processor ∅
                         (fun _ => Relay.Rejected None))
                 (Relay.mkConfirmBody (Some "")) (or_intror eq_refl))).
Defined.

(** X19.  Whatever the request and whatever the processor does, each of
    the two endpoints makes at most one processor call and answers in
    one of two shapes: status 200 with its success body, or status 400
    or 500 with an [error] text that is not empty.  So the frontend's
    [response.ok] is true exactly for the success bodies. *)
Theorem relay_responses_are_well_formed
    (Store : Type) (processor : Relay.Call → Store → Relay.Settled * Store)
    (s : Store) (settle : Relay.Call → Relay.Settled)
    (cb : Relay.CreateBody) (sb : Relay.ConfirmBody) :
  let r1 := (Relay.serve processor (Relay.create_payment_intent cb) s).1 in
  let r2 := (Relay.serve processor (Relay.confirm_payment sb) s).1 in
  Responses.well_formed r1
  ∧ Responses.well_formed r2
  ∧ (length (Relay.calls settle (Relay.create_payment_intent cb)) ≤ 1)%nat
  ∧ (length (Relay.calls settle (Relay.confirm_payment sb)) ≤ 1)%nat
  ∧ (∀ r, r = r1 ∨ r = r2 →
       ((200 <=? Relay.http_status r) && (Relay.http_status r <? 300) = true ↔
        ∀ e, Relay.body r ≠ Relay.ErrorJson e)).
Proof.
  intros r1 r2.
  assert (H1 : Responses.well_formed r1)
    by apply create_payment_intent_well_formed.
  assert (H2 : Responses.well_formed r2)
    by apply confirm_payment_well_formed.
  split; [exact H1|]. split; [exact H2|]. split; [|split].
  - unfold Relay.create_payment_intent.
    destruct (Relay.amount cb) as [a|]; [|simpl; lia].
    destruct (Relay.amount_rejected (Some a)); simpl; [lia|].
    destruct (settle _); simpl; lia.
  - unfold Relay.confirm_payment.
    destruct (Relay.paymentIntentId sb) as [[|c pid]|]; simpl; try lia.
    destruct (settle _); simpl; lia.
  - intros r Hr.
    assert (H : Responses.well_formed r) by (destruct Hr as [-> | ->]; assumption).
    clear -H. unfold Responses.well_formed in H.
    destruct r as [code [sec pid|st am cur|e]]; simpl in *.
    + subst code. split; [intros _ e; discriminate | reflexivity].
    + subst code. split; [intros _ e; discriminate | reflexivity].
    + destruct H as [[-> | ->] _]; simpl;
        (split; [discriminate | intros Hne; exfalso; by apply (Hne e)]).
Qed.

Lemma relay_responses_are_well_formed_witness :
  (200 <=? Relay.http_status
             (Relay.serve Relay.sim_processor
                (Relay.create_payment_intent
                   (Relay.mkCreateBody (Some 9996) None None)) ∅).1)
  && (Relay.http_status
        (Relay.serve Relay.sim_processor
           (Relay.create_payment_intent
              (Relay.mkCreateBody (Some 9996) None None)) ∅).1 <? 300)
  = true.
Proof.
  destruct (relay_responses_are_well_formed _ Relay.sim_processor ∅
              (fun _ => Relay.Rejected None)
              (Relay.mkCreateBody (Some 9996) None None)
              (Relay.mkConfirmBody None)) as (_ & _ & _ & _ & Hok).
  apply (Hok _ (or_introl eq_refl)). intros e. vm_compute. discriminate.
Defined.

(** X20.  When the processor fails to retrieve an intent (an unknown id,
    say), the status endpoint answers 500 with the processor's message,
    or with "Failed to confirm payment" when the failure carries none,
    and hands back the store as the processor left it. *)
Theorem status_failure_is_reported
    (Store : Type) (processor : Relay.Call → Store → Relay.Settled * Store)
    (s s' : Store) (pid : string) (msg : option string) :
  pid ≠ "" →
  processor (Relay.PaymentIntentsRetrieve pid) s = (Relay.Rejected msg, s') →
  Relay.serve processor (Relay.confirm_payment (Relay.mkConfirmBody (Some pid))) s
    = (Relay.mkResponse 500
         (Relay.ErrorJson (JS.or_else msg "Failed to confirm payment")), s')
  ∧ (∀ m, msg = Some m → m ≠ "" →
       (Relay.serve processor
          (Relay.confirm_payment (Relay.mkConfirmBody (Some pid))) s).1
       = Relay.mkResponse 500 (Relay.ErrorJson m)).
Proof.
  intros Hpid Hp.
  assert (H : Relay.serve processor
                (Relay.confirm_payment (Relay.mkConfirmBody (Some pid))) s
              = (Relay.mkResponse 500
                   (Relay.ErrorJson (JS.or_else msg "Failed to confirm payment")), s')).
  { unfold Relay.confirm_payment. simpl.
    destruct pid as [|c pid]; [congruence|]. simpl. rewrite Hp. reflexivity. }
  split; [exact H|].
  intros m -> Hm. rewrite H. simpl. destruct m; [congruence | reflexivity].
Qed.

Lemma status_failure_is_reported_witness :
  Relay.serve Relay.sim_processor
    (Relay.confirm_payment (Relay.mkConfirmBody (Some "pi_404"))) ∅
  = (Relay.mkResponse 500
       (Relay.ErrorJson "No such payment_intent: pi_404"), ∅).
Proof.
  assert (Hpid : "pi_404" ≠ "") by discriminate.
  exact (proj1 (status_failure_is_reported _ Relay.sim_processor ∅ ∅ "pi_404"
                  (Some "No such payment_intent: pi_404") Hpid eq_refl)).
Defined.

(** ** The webhook endpoint *)

Section WebhookFacts.
Import Webhook.

Variable constructEvent : string → string → string → Verified.

Lemma missing_false (s : option string) :
  missing s = false → ∃ v, s = Some v ∧ v ≠ "".
Proof.
  destruct s as [[|c v]|]; simpl; try discriminate.
  intros _. eexists. split; [reflexivity | discriminate].
Qed.

Lemma missing_present (v : string) : v ≠ "" → missing (Some v) = false.
Proof. destruct v; [congruence | reflexivity]. Qed.

(** The handler once both the secret and the signature are there. *)
Lemma webhook_signed (secret sig payload : string) :
  secret ≠ "" → sig ≠ "" →
  webhook constructEvent (Some secret) (Some sig) payload
  = match constructEvent payload sig secret with
    | Constructed event => (SendReceived, [log_event event])
    | Threw msg => (SendText 400 ("Webhook Error: " +:+ interpolate msg), [])
    end.
Proof.
  intros Hs Hg. unfold webhook.
  rewrite (missing_present _ Hs), (missing_present _ Hg). reflexivity.
Qed.

End WebhookFacts.

(** X21.  Without a configured webhook secret, or without a
    [stripe-signature] header (an empty value counts as none), the
    webhook endpoint answers 400 "Webhook signature required" and logs
    nothing, whatever the payload is and whatever verifying it would
    have said. *)
Theorem unsigned_webhook_is_rejected
    (constructEvent : string → string → string → Webhook.Verified)
    (webhookSecret sig : option string) (payload : string) :
  Webhook.missing webhookSecret = true ∨ Webhook.missing sig = true →
  Webhook.webhook constructEvent webhookSecret sig payload
  = (Webhook.SendText 400 "Webhook signature required", []).
Proof.
  intros H. unfold Webhook.webhook.
  destruct H as [-> | ->]; [reflexivity|].
  rewrite orb_true_r. reflexivity.
Qed.

Lemma unsigned_webhook_is_rejected_witness :
  Webhook.webhook
    (fun _ _ _ => Webhook.Constructed
                    (Webhook.mkEvent "payment_intent.succeeded" "pi_0"))
    None (Some "t=1,v1=abc") "{}"
  = (Webhook.SendText 400 "Webhook signature required", []).
Proof.
  apply unsigned_webhook_is_rejected. left. reflexivity.
Defined.

(** X22.  The webhook endpoint acknowledges with [{received: true}]
    exactly when the secret and the signature are both there and the
    event verifies; it then logs one line, chosen by the event's
    type.  Every verified event is acknowledged, also one of a type the
    handler does not know. *)
Theorem webhook_acknowledges_iff_verified
    (constructEvent : string → string → string → Webhook.Verified)
    (webhookSecret sig : option string) (payload : string)
    (log : list Webhook.LogLine) :
  Webhook.webhook constructEvent webhookSecret sig payload
    = (Webhook.SendReceived, log)
  ↔ ∃ secret signature event,
      webhookSecret = Some secret ∧ secret ≠ ""
      ∧ sig = Some signature ∧ signature ≠ ""
      ∧ constructEvent payload signature secret = Webhook.Constructed event
      ∧ log = [Webhook.log_event event].
Proof.
  split.
  - unfold Webhook.webhook.
    destruct (Webhook.missing webhookSecret) eqn:Hs; [discriminate|].
    destruct (Webhook.missing sig) eqn:Hg; [discriminate|]. simpl.
    apply missing_false in Hs as (secret & -> & Hs).
    apply missing_false in Hg as (signature & -> & Hg). simpl.
    destruct (constructEvent payload signature secret) as [event|msg] eqn:Hce;
      [|discriminate].
    intros H. injection H as <-.
    exists secret, signature, event. repeat split; assumption.
  - intros (secret & signature & event & -> & Hs & -> & Hg & Hce & ->).
    rewrite webhook_signed by assumption. rewrite Hce. reflexivity.
Qed.

Lemma webhook_acknowledges_iff_verified_witness :
  Webhook.webhook
    (fun _ _ _ => Webhook.Constructed (Webhook.mkEvent "charge.refunded" "ch_1"))
    (Some "whsec_test") (Some "t=1,v1=abc") "{}"
  = (Webhook.SendReceived,
     [Webhook.mkLogLine "Unhandled event type:" "charge.refunded"]).
Proof.
  apply (proj2 (webhook_acknowledges_iff_verified _ _ _ _ _)).
  exists "whsec_test", "t=1,v1=abc", (Webhook.mkEvent "charge.refunded" "ch_1").
  repeat split; discriminate.
Defined.

(** X23.  When the secret and the signature are there but verifying the
    event throws, the endpoint answers 400 with "Webhook Error: "
    followed by the thrown error's message, and logs no event; an error
    without a message gives the text "Webhook Error: undefined". *)
Theorem unverified_webhook_is_rejected
    (constructEvent : string → string → string → Webhook.Verified)
    (secret sig payload : string) (msg : option string) :
  secret ≠ "" → sig ≠ "" →
  constructEvent payload sig secret = Webhook.Threw msg →
  Webhook.webhook constructEvent (Some secret) (Some sig) payload
  = (Webhook.SendText 400
       ("Webhook Error: " +:+ match msg with Some m => m | None => "undefined" end),
     []).
Proof.
  intros Hs Hg Hce. rewrite webhook_signed by assumption. rewrite Hce.
  destruct msg; reflexivity.
Qed.

Lemma unverified_webhook_is_rejected_witness :
  Webhook.webhook (fun _ _ _ => Webhook.Threw None)
    (Some "whsec_test") (Some "t=1,v1=abc") "{}"
  = (Webhook.SendText 400 "Webhook Error: undefined", []).
Proof.
  assert (Hs : "whsec_test" ≠ "") by discriminate.
  assert (Hg : "t=1,v1=abc" ≠ "") by discriminate.
  exact (unverified_webhook_is_rejected (fun _ _ _ => Webhook.Threw None)
           "whsec_test" "t=1,v1=abc" "{}" None Hs Hg eq_refl).
Defined.

(** ** One checkout across both halves *)

Section EndToEndFacts.
Import EndToEnd.

Context {Store : Type}.
Variable processor : Relay.Call → Store → Relay.Settled * Store.
Variable api : option string.

Lemma serve_wrapper_request (a : Z) (s : Store) :
  50 ≤ a →
  Relay.serve processor
    (Relay.create_payment_intent (parsed_body (StripeCheckout.create_request api a))) s
  = match processor (relayed_call a) s with
    | (Relay.Fulfilled pi, s') =>
        (Relay.mkResponse 200
           (Relay.IntentJson (Relay.client_secret pi) (Relay.id pi)), s')
    | (Relay.Rejected msg, s') =>
        (Relay.mkResponse 500
           (Relay.ErrorJson (JS.or_else msg "Failed to create payment intent")), s')
    end.
Proof.
  intros Hge.
  destruct (create_payment_intent_valid
              (parsed_body (StripeCheckout.create_request api a)) a eq_refl Hge)
    as (k & Hh & Hok & Hfail).
  rewrite Hh. simpl. fold (relayed_call a).
  destruct (processor (relayed_call a) s) as [[pi|msg] s'];
    [rewrite Hok | rewrite Hfail]; reflexivity.
Qed.

Lemma mount_from (a : Z) :
  50 ≤ a →
  StripeCheckout.mount api a
  = StripeCheckout.mkState "" "" true a [StripeCheckout.create_request api a]
      {[ 0%nat := StripeCheckout.create_request api a ]}.
Proof.
  intros Hge. unfold StripeCheckout.mount, StripeCheckout.effect. simpl.
  destruct (Z.ltb_spec a 50); [lia | reflexivity].
Qed.

End EndToEndFacts.

(** X24.  For a total of at least 50, when the processor accepts the
    intent, the relay makes the one call [paymentIntents.create] with
    that amount and "usd", and the wrapper ends up with the intent's
    client secret stored, no error and loading off: it renders the
    checkout form for that secret (or nothing, if the processor gave no
    secret). *)
Theorem accepted_intent_reaches_the_form
    (Store : Type) (processor : Relay.Call → Store → Relay.Settled * Store)
    (api : option string) (a : Z) (s s' : Store) (pi : Relay.PaymentIntent) :
  50 ≤ a →
  processor (EndToEnd.relayed_call a) s = (Relay.Fulfilled pi, s') →
  let secret := default "" (Relay.client_secret pi) in
  EndToEnd.first_answer processor api a s
    = (StripeCheckout.mkState secret "" false a
         [StripeCheckout.create_request api a] ∅, s')
  ∧ StripeCheckout.render (EndToEnd.first_answer processor api a s).1
    = (if JS.truthy secret then StripeCheckout.CheckoutView secret
       else StripeCheckout.NullView).
Proof.
  intros Hge Hp secret.
  assert (H : EndToEnd.first_answer processor api a s
              = (StripeCheckout.mkState secret "" false a
                   [StripeCheckout.create_request api a] ∅, s')).
  { unfold EndToEnd.first_answer, EndToEnd.exchange.
    rewrite serve_wrapper_request by exact Hge. rewrite Hp.
    rewrite mount_from by exact Hge. simpl.
    rewrite lookup_singleton_eq. simpl.
    rewrite delete_singleton_eq. reflexivity. }
  split; [exact H|]. rewrite H. unfold StripeCheckout.render. simpl.
  destruct (JS.truthy secret); reflexivity.
Qed.

Lemma accepted_intent_reaches_the_form_witness :
  StripeCheckout.render
    (EndToEnd.first_answer Relay.sim_processor None 9996 ∅).1
  = StripeCheckout.CheckoutView "pi_0_secret".
Proof.
  assert (Hge : 50 ≤ 9996) by lia.
  destruct (accepted_intent_reaches_the_form _ Relay.sim_processor None 9996 ∅ _ _
              Hge eq_refl) as [_ Hr].
  exact Hr.
Defined.

(** X25.  For a total of at least 50, when the processor refuses the
    intent, its message reaches the user unchanged through both halves:
    the relay answers 500 with it and the wrapper shows it in the error
    view, with the "Try Again" button.  A refusal without a message is
    shown as "Failed to create payment intent". *)
Theorem refused_intent_reaches_the_user
    (Store : Type) (processor : Relay.Call → Store → Relay.Settled * Store)
    (api : option string) (a : Z) (s s' : Store) (msg : option string) :
  50 ≤ a →
  processor (EndToEnd.relayed_call a) s = (Relay.Rejected msg, s') →
  let shown := JS.or_else msg "Failed to create payment intent" in
  EndToEnd.first_answer processor api a s
    = (StripeCheckout.mkState "" shown false a
         [StripeCheckout.create_request api a] ∅, s')
  ∧ StripeCheckout.render (EndToEnd.first_answer processor api a s).1
    = StripeCheckout.ErrorView shown
  ∧ (∀ m, msg = Some m → m ≠ "" → shown = m).
Proof.
  intros Hge Hp shown.
  assert (Hne : shown ≠ "") by (apply or_else_nonempty; discriminate).
  assert (H : EndToEnd.first_answer processor api a s
              = (StripeCheckout.mkState "" shown false a
                   [StripeCheckout.create_request api a] ∅, s')).
  { unfold EndToEnd.first_answer, EndToEnd.exchange.
    rewrite serve_wrapper_request by exact Hge. rewrite Hp.
    rewrite mount_from by exact Hge. simpl.
    rewrite lookup_singleton_eq. simpl.
    rewrite delete_singleton_eq. fold shown.
    destruct shown; [congruence | reflexivity]. }
  split; [exact H|]. split.
  - rewrite H. unfold StripeCheckout.render. simpl.
    rewrite (truthy_nonempty _ Hne). reflexivity.
  - intros m -> Hm. subst shown. destruct m; [congruence | reflexivity].
Qed.

Lemma refused_intent_reaches_the_user_witness :
  let refusing (c : Relay.Call) (s : unit) :=
    (Relay.Rejected (Some "Invalid currency: xyz"), s) in
  StripeCheckout.render (EndToEnd.first_answer refusing None 9996 tt).1
  = StripeCheckout.ErrorView "Invalid currency: xyz".
Proof.
  intros refusing.
  assert (Hge : 50 ≤ 9996) by lia.
  destruct (refused_intent_reaches_the_user unit refusing None 9996 tt tt
              (Some "Invalid currency: xyz") Hge eq_refl) as (_ & Hr & _).
  exact Hr.
Defined.

(** X26.  A retry below the minimum stops at the relay: for a total
    under 50, after the click on "Try Again" and the relay's answer,
    the processor has not been called (its store is as it was), and the
    wrapper shows the relay's "Amount must be at least $0.50 USD" with
    the retry button again. *)
Theorem retry_below_minimum_stops_at_relay
    (Store : Type) (processor : Relay.Call → Store → Relay.Settled * Store)
    (api : option string) (a : Z) (s : Store) :
  a < 50 →
  EndToEnd.retry_answer processor api a s
    = (StripeCheckout.mkState "" "Amount must be at least $0.50 USD" false a
         [StripeCheckout.create_request api a] ∅, s)
  ∧ StripeCheckout.retry_button_shown
      (EndToEnd.retry_answer processor api a s).1 = true
  ∧ ∀ settle,
      Relay.calls settle
        (Relay.create_payment_intent
           (EndToEnd.parsed_body (StripeCheckout.create_request api a))) = [].
Proof.
  intros Hlt.
  assert (Hh : Relay.create_payment_intent
                 (EndToEnd.parsed_body (StripeCheckout.create_request api a))
               = Relay.Respond
                   (Relay.mkResponse 400
                      (Relay.ErrorJson "Amount must be at least $0.50 USD"))).
  { unfold Relay.create_payment_intent, EndToEnd.parsed_body.
    simpl Relay.amount. cbv iota.
    rewrite amount_rejected_lt by exact Hlt. reflexivity. }
  assert (H : EndToEnd.retry_answer processor api a s
              = (StripeCheckout.mkState "" "Amount must be at least $0.50 USD"
                   false a [StripeCheckout.create_request api a] ∅, s)).
  { unfold EndToEnd.retry_answer, EndToEnd.exchange. rewrite Hh.
    rewrite mount_below_minimum by exact Hlt. simpl.
    rewrite lookup_insert_eq. simpl. rewrite delete_insert_eq, delete_empty.
    reflexivity. }
  split; [exact H|]. split; [rewrite H; reflexivity|].
  intros settle. rewrite Hh. reflexivity.
Qed.

Lemma retry_below_minimum_stops_at_relay_witness :
  EndToEnd.retry_answer Relay.sim_processor None 25 ∅
  = (StripeCheckout.mkState "" "Amount must be at least $0.50 USD" false 25
       [StripeCheckout.create_request None 25] ∅, ∅).
Proof.
  assert (Hlt : 25 < 50) by lia.
  exact (proj1 (retry_below_minimum_stops_at_relay _ Relay.sim_processor None 25 ∅ Hlt)).
Defined.
